(** * alx_travel_app / listings / serializers.py

    A shallow embedding of the validation layer of the vacation-rental
    booking application: [ReviewSerializer.validate_rating],
    [BookingSerializer.validate] and [BookingSerializer.create], together
    with the part of the model serializer protocol they run in
    (read-only fields, [is_valid] followed by [save]).

    Conventions.
    - A Python [date] is carried as its proleptic Gregorian ordinal
      ([date.toordinal()]): comparison of dates is comparison of ordinals
      and [(b - a).days] is the difference of ordinals.
    - Python integers are unbounded: [Z].
    - A dict of validated data is a record of optional entries, one per
      writable key; [None] is an absent key, which is what [data.get(k)]
      returns for it.
    - The database is a pair of tables keyed by primary key ([gmap Z]).
      Code that talks to it runs in the monad [Db], which threads the
      store and propagates a raised exception. *)

From Stdlib Require Import Ascii.
From stdpp Require Import gmap strings list fin_maps pretty.

Open Scope Z_scope.

(* ===================================================================== *)
(** ** Dates *)
(* ===================================================================== *)

Module Calendar.

Definition is_leap (year : Z) : bool :=
  (year mod 4 =? 0) && (negb (year mod 100 =? 0) || (year mod 400 =? 0)).

Definition days_before_year (year : Z) : Z :=
  let y := year - 1 in
  y * 365 + y / 4 - y / 100 + y / 400.

Definition days_before_month (year month : Z) : Z :=
  nth (Z.to_nat month)
      [-1; 0; 31; 59; 90; 120; 151; 181; 212; 243; 273; 304; 334] 0
  + (if (2 <? month) && is_leap year then 1 else 0).

(** [date(year, month, day).toordinal()] *)
Definition date (year month day : Z) : Z :=
  days_before_year year + days_before_month year month + day.

End Calendar.

(* ===================================================================== *)
(** ** Exceptions *)
(* ===================================================================== *)

(** The validation failures raised in this file, one constructor per
    [raise serializers.ValidationError(...)] site. *)
Inductive Rejection : Type :=
| RatingOutOfRange
| CheckOutNotAfterCheckIn
| CheckInInPast
| ExceedsCapacity (guests max_guests : Z)
| InvalidListing
| NotAvailable.

(** The message each rejection carries. *)
Definition message (r : Rejection) : string :=
  match r with
  | RatingOutOfRange => "Rating must be between 1 and 5."
  | CheckOutNotAfterCheckIn => "Check-out date must be after check-in date."
  | CheckInInPast => "Check-in date cannot be in the past."
  | ExceedsCapacity g m =>
      "Number of guests (" +:+ pretty g
        +:+ ") exceeds maximum capacity (" +:+ pretty m +:+ ")."
  | InvalidListing => "Invalid listing ID."
  | NotAvailable => "Listing is not available for the selected dates."
  end.

(** [RequiredFieldsMissing] is the [serializers.ValidationError] that
    [is_valid] raises before [validate] runs, with "This field is
    required." for each of the listed fields. *)
Inductive Exception : Type :=
| ValidationError (r : Rejection)
| DoesNotExist
| KeyError (key : string)
| IntegrityError
| RequiredFieldsMissing (fields : list string).

Inductive Outcome (A : Type) : Type :=
| Returned (a : A)
| Raised (e : Exception).
Arguments Returned {A} a.
Arguments Raised {A} e.

(* ===================================================================== *)
(** ** Records *)
(* ===================================================================== *)

(** Modelled from the spec: the model classes ([listings/models.py]) are
    not among the sources. A listing has a price per night and a capacity
    (max guests); these are the two columns the serializers read. The
    price is an exact amount, so that nights times price is exact. *)
Record Listing : Type := mkListing {
  price_per_night : Z;
  max_guests : Z
}.

(** Modelled from the spec: the booking model of [listings/models.py], "a
    reservation of a Listing by a User for a date range". The columns are
    the model fields listed in [BookingSerializer.Meta.fields], without
    the two timestamps; the primary key [id] is the key of the table. *)
Record Booking : Type := mkBooking {
  listing_id : Z;
  user_id : Z;
  check_in_date : Z;
  check_out_date : Z;
  guests : Z;
  total_price : Z;
  status : string;
  special_requests : string
}.

(** A model instance: a row together with its primary key. *)
Record Instance : Type := mkInstance {
  pk : Z;
  row : Booking
}.

(** The dict handed to [validate], [create] and [update]. *)
Record Data : Type := mkData {
  data_listing_id : option Z;
  data_user_id : option Z;
  data_check_in_date : option Z;
  data_check_out_date : option Z;
  data_guests : option Z;
  data_total_price : option Z;
  data_status : option string;
  data_special_requests : option string
}.

(** What the booking model fills in for a column that [objects.create] is
    not given; [None] stands for a column without a default. The model
    class fixes these; here they are a parameter of [create]. *)
Record Defaults : Type := mkDefaults {
  default_user_id : option Z;
  default_guests : option Z;
  default_status : option string;
  default_special_requests : option string
}.

Record Store : Type := mkStore {
  listings : gmap Z Listing;
  bookings : gmap Z Booking
}.

(* ===================================================================== *)
(** ** The database monad *)
(* ===================================================================== *)

Definition Db (A : Type) : Type := Store → Outcome A * Store.

Definition ret {A} (a : A) : Db A := λ st, (Returned a, st).

Definition raise {A} (e : Exception) : Db A := λ st, (Raised e, st).

Definition bind {A B} (m : Db A) (k : A → Db B) : Db B :=
  λ st, match m st with
        | (Returned a, st') => k a st'
        | (Raised e, st') => (Raised e, st')
        end.

(** [try: m  except DoesNotExist: h] *)
Definition except_DoesNotExist {A} (m : Db A) (h : Db A) : Db A :=
  λ st, match m st with
        | (Raised DoesNotExist, st') => h st'
        | r => r
        end.

Notation "x <- m ;; k" := (bind m (λ x, k))
  (at level 100, m at next level, right associativity).
Notation "m ;;; k" := (bind m (λ _, k))
  (at level 100, right associativity).

(* ===================================================================== *)
(** ** Truthiness *)
(* ===================================================================== *)

(** [if v:] for an optional integer: absent and zero are both false. *)
Definition truthy_int (v : option Z) : option Z :=
  match v with
  | Some n => if n =? 0 then None else Some n
  | None => None
  end.

(** [if v:] for an optional date: a date is always true. *)
Definition truthy_date (v : option Z) : option Z := v.

(* ===================================================================== *)
(** ** ReviewSerializer *)
(* ===================================================================== *)

Definition validate_rating (value : Z) : Outcome Z :=
  if negb ((1 <=? value) && (value <=? 5))
  then Raised (ValidationError RatingOutOfRange)
  else Returned value.

(* ===================================================================== *)
(** ** The object-relational layer the serializers call into *)
(* ===================================================================== *)

(** [Listing.objects.get(id=...)] *)
Definition Listing_objects_get (id : Z) : Db Listing :=
  λ st, match listings st !! id with
        | Some l => (Returned l, st)
        | None => (Raised DoesNotExist, st)
        end.

(** [Booking.objects.get(id=...)], as the caller of an update fetches the
    instance it hands to the serializer. *)
Definition Booking_objects_get (id : Z) : Db Instance :=
  λ st, match bookings st !! id with
        | Some b => (Returned (mkInstance id b), st)
        | None => (Raised DoesNotExist, st)
        end.

(** A query set is a lazy selection of rows: nothing touches the store
    until [exists] runs it. *)
Definition QuerySet : Type := Z → Booking → bool.

Definition Booking_objects : QuerySet := λ _ _, true.

(** [status__in=[...]] *)
Definition status_in (choices : list string) (s : string) : bool :=
  existsb (String.eqb s) choices.

(** [qs.filter(listing_id=l, status__in=['confirmed', 'pending'],
               check_in_date__lt=check_out, check_out_date__gt=check_in)] *)
Definition filter_conflicting (l check_out check_in : Z) (qs : QuerySet)
  : QuerySet :=
  λ k b, qs k b
         && (listing_id b =? l)
         && status_in ["confirmed"; "pending"]%string (status b)
         && (check_in_date b <? check_out)
         && (check_out_date b >? check_in).

(** [qs.exclude(id=i)] *)
Definition exclude_id (i : Z) (qs : QuerySet) : QuerySet :=
  λ k b, qs k b && negb (k =? i).

(** [qs.exists()] *)
Definition qs_exists (qs : QuerySet) : Db bool :=
  λ st, (Returned (existsb (λ kb, qs kb.1 kb.2) (map_to_list (bookings st))),
         st).

(** [instance.save()] for an instance that carries its primary key. The
    row is written as it is: the foreign keys [listing_id] and [user_id]
    are not checked against the tables they point to, so this [save]
    succeeds where a database that enforces them raises [IntegrityError]
    and writes nothing. *)
Definition save (instance : Instance) : Db unit :=
  λ st, (Returned tt,
         mkStore (listings st) (<[pk instance := row instance]> (bookings st))).

(** A keyword argument of [objects.create], or the column's default. *)
Definition column {A} (given default_value : option A) : Db A :=
  match given, default_value with
  | Some v, _ => ret v
  | None, Some v => ret v
  | None, None => raise IntegrityError
  end.

(** The largest primary key in use, 0 for an empty table. *)
Definition last_pk (bs : gmap Z Booking) : Z :=
  map_fold (λ k _ acc, Z.max k acc) 0 bs.

(** The primary key the table hands out for a new row: 1 for the first
    row and one more than the largest key in use after that, as an
    auto-increment column does while no row is deleted (nothing in this
    layer deletes one). *)
Definition new_pk : Db Z :=
  λ st, (Returned (last_pk (bookings st) + 1), st).

(** [Booking.objects.create] with the entries of [kwargs] as keyword
    arguments. *)
Definition Booking_objects_create (defaults : Defaults) (kwargs : Data)
  : Db Instance :=
  l <- column (data_listing_id kwargs) None ;;
  u <- column (data_user_id kwargs) (default_user_id defaults) ;;
  ci <- column (data_check_in_date kwargs) None ;;
  co <- column (data_check_out_date kwargs) None ;;
  g <- column (data_guests kwargs) (default_guests defaults) ;;
  t <- column (data_total_price kwargs) None ;;
  s <- column (data_status kwargs) (default_status defaults) ;;
  r <- column (data_special_requests kwargs)
              (default_special_requests defaults) ;;
  k <- new_pk ;;
  let instance := mkInstance k (mkBooking l u ci co g t s r) in
  save instance ;;;
  ret instance.

(** [validated_data[key]] *)
Definition index {A} (key : string) (entry : option A) : Db A :=
  match entry with
  | Some v => ret v
  | None => raise (KeyError key)
  end.

(** [setattr(instance, attr, value)] for every entry of the dict. *)
Definition setattrs (b : Booking) (d : Data) : Booking :=
  {| listing_id := default (listing_id b) (data_listing_id d);
     user_id := default (user_id b) (data_user_id d);
     check_in_date := default (check_in_date b) (data_check_in_date d);
     check_out_date := default (check_out_date b) (data_check_out_date d);
     guests := default (guests b) (data_guests d);
     total_price := default (total_price b) (data_total_price d);
     status := default (status b) (data_status d);
     special_requests :=
       default (special_requests b) (data_special_requests d) |}.

(* ===================================================================== *)
(** ** BookingSerializer *)
(* ===================================================================== *)

(** [Meta.read_only_fields]: of the keys carried by [Data], [total_price]
    is read-only, so it never reaches the validated data. *)
Definition writable (initial_data : Data) : Data :=
  {| data_listing_id := data_listing_id initial_data;
     data_user_id := data_user_id initial_data;
     data_check_in_date := data_check_in_date initial_data;
     data_check_out_date := data_check_out_date initial_data;
     data_guests := data_guests initial_data;
     data_total_price := None;
     data_status := data_status initial_data;
     data_special_requests := data_special_requests initial_data |}.

(** A required field that the data lacks. *)
Definition lacking {A} (name : string) (given default_value : option A)
  : list string :=
  match given, default_value with
  | None, None => [name]
  | _, _ => []
  end.

(** The required fields that the data lacks, in the order of
    [Meta.fields]. [listing_id] and [user_id] are declared on the
    serializer without [required=False], so they are required; a field
    taken from the model is required when its column has no default. *)
Definition missing_required (defaults : Defaults) (d : Data) : list string :=
  lacking "listing_id" (data_listing_id d) None
  ++ lacking "user_id" (data_user_id d) None
  ++ lacking "check_in_date" (data_check_in_date d) None
  ++ lacking "check_out_date" (data_check_out_date d) None
  ++ lacking "guests" (data_guests d) (default_guests defaults)
  ++ lacking "status" (data_status d) (default_status defaults)
  ++ lacking "special_requests" (data_special_requests d)
             (default_special_requests defaults).

(** The field stage of [is_valid]: [missing] are the required fields that
    the data lacks (none under [partial=True], where no field is
    required). If there are any, they are reported and [validate] does
    not run; otherwise the writable entries go on to [validate]. The
    entries of [Data] are values that have passed their own field's
    conversion. *)
Definition to_internal_value (missing : list string) (initial_data : Data)
  : Db Data :=
  match missing with
  | [] => ret (writable initial_data)
  | _ => raise (RequiredFieldsMissing missing)
  end.

(** [BookingSerializer.validate]; [self_instance] is [self.instance] and
    [today] is [timezone.now().date()]. *)
Definition validate (self_instance : option Instance) (today : Z)
    (data : Data) : Db Data :=
  let check_in := data_check_in_date data in
  let check_out := data_check_out_date data in
  let n_guests := data_guests data in
  let l_id := data_listing_id data in
  (* Validate dates *)
  (match truthy_date check_in, truthy_date check_out with
   | Some ci, Some co =>
       if co <=? ci then raise (ValidationError CheckOutNotAfterCheckIn)
       else if ci <? today then raise (ValidationError CheckInInPast)
       else ret tt
   | _, _ => ret tt
   end) ;;;
  (* Validate guests against listing capacity *)
  (match truthy_int l_id, truthy_int n_guests with
   | Some l, Some g =>
       except_DoesNotExist
         (listing <- Listing_objects_get l ;;
          if g >? max_guests listing
          then raise (ValidationError (ExceedsCapacity g (max_guests listing)))
          else ret tt)
         (raise (ValidationError InvalidListing))
   | _, _ => ret tt
   end) ;;;
  (* Check for conflicting bookings *)
  (match truthy_date check_in, truthy_date check_out, truthy_int l_id with
   | Some ci, Some co, Some l =>
       let conflicting_bookings :=
         filter_conflicting l co ci Booking_objects in
       (* Exclude current booking if updating *)
       let conflicting_bookings :=
         match self_instance with
         | Some instance => exclude_id (pk instance) conflicting_bookings
         | None => conflicting_bookings
         end in
       found <- qs_exists conflicting_bookings ;;
       if found : bool then raise (ValidationError NotAvailable) else ret tt
   | _, _, _ => ret tt
   end) ;;;
  ret data.

(** [BookingSerializer.create] *)
Definition create (defaults : Defaults) (validated_data : Data)
  : Db Instance :=
  l <- index "listing_id" (data_listing_id validated_data) ;;
  listing <- Listing_objects_get l ;;
  check_in <- index "check_in_date" (data_check_in_date validated_data) ;;
  check_out <- index "check_out_date" (data_check_out_date validated_data) ;;
  let nights := check_out - check_in in
  let validated_data :=
    {| data_listing_id := data_listing_id validated_data;
       data_user_id := data_user_id validated_data;
       data_check_in_date := data_check_in_date validated_data;
       data_check_out_date := data_check_out_date validated_data;
       data_guests := data_guests validated_data;
       data_total_price := Some (price_per_night listing * nights);
       data_status := data_status validated_data;
       data_special_requests := data_special_requests validated_data |} in
  Booking_objects_create defaults validated_data.

(** The inherited [update]: every entry of the validated data is set on
    the instance, which is then saved. *)
Definition update (instance : Instance) (validated_data : Data)
  : Db Instance :=
  let instance :=
    mkInstance (pk instance) (setattrs (row instance) validated_data) in
  save instance ;;;
  ret instance.

(** [BookingSerializer(data=d)]: [is_valid(raise_exception=True)], then
    [save()]. *)
Definition serializer_create (defaults : Defaults) (today : Z)
    (initial_data : Data) : Db Instance :=
  internal_value <-
    to_internal_value (missing_required defaults initial_data) initial_data ;;
  validated_data <- validate None today internal_value ;;
  create defaults validated_data.

(** [BookingSerializer(instance, data=d, partial=True)] for the booking
    with primary key [id]: [is_valid(raise_exception=True)], then
    [save()]. No field is required, so the data may leave keys out; with
    every key present this is also what a full update does. *)
Definition serializer_update (today : Z) (id : Z) (initial_data : Data)
  : Db Instance :=
  instance <- Booking_objects_get id ;;
  internal_value <- to_internal_value [] initial_data ;;
  validated_data <- validate (Some instance) today internal_value ;;
  update instance validated_data.

(** A write request against the booking serializer, with the date the
    clock shows when it is served. *)
Inductive Request : Type :=
| CreateBooking (today : Z) (initial_data : Data)
| UpdateBooking (today : Z) (id : Z) (initial_data : Data).

Definition perform (defaults : Defaults) (r : Request) : Db Instance :=
  match r with
  | CreateBooking today d => serializer_create defaults today d
  | UpdateBooking today id d => serializer_update today id d
  end.

(** A sequence of requests every one of which succeeds. *)
Fixpoint perform_all (defaults : Defaults) (rs : list Request) (st : Store)
  : option Store :=
  match rs with
  | [] => Some st
  | r :: rs' =>
      match perform defaults r st with
      | (Returned _, st') => perform_all defaults rs' st'
      | (Raised _, _) => None
      end
  end.

(* ===================================================================== *)
(** ** The three rules of [validate], read off as pure checks *)
(* ===================================================================== *)

(** Each block of [validate] only reads the store, so its verdict is a
    function of the tables: [None] when the block falls through, the
    rejection it raises otherwise. [validate_rules] below shows that
    [validate] is these three checks in sequence. *)

Definition date_rule (today : Z) (data : Data) : option Rejection :=
  match data_check_in_date data, data_check_out_date data with
  | Some ci, Some co =>
      if co <=? ci then Some CheckOutNotAfterCheckIn
      else if ci <? today then Some CheckInInPast
      else None
  | _, _ => None
  end.

Definition capacity_rule (ls : gmap Z Listing) (data : Data)
  : option Rejection :=
  match truthy_int (data_listing_id data), truthy_int (data_guests data) with
  | Some l, Some g =>
      match ls !! l with
      | Some listing =>
          if g >? max_guests listing
          then Some (ExceedsCapacity g (max_guests listing))
          else None
      | None => Some InvalidListing
      end
  | _, _ => None
  end.

(** The rows the conflict query selects. *)
Definition selected (self_instance : option Instance) (l co ci : Z)
  : QuerySet :=
  match self_instance with
  | Some instance =>
      exclude_id (pk instance) (filter_conflicting l co ci Booking_objects)
  | None => filter_conflicting l co ci Booking_objects
  end.

Definition conflict_rule (bs : gmap Z Booking)
    (self_instance : option Instance) (data : Data) : option Rejection :=
  match data_check_in_date data, data_check_out_date data,
        truthy_int (data_listing_id data) with
  | Some ci, Some co, Some l =>
      if existsb (λ kb, selected self_instance l co ci kb.1 kb.2)
                 (map_to_list bs)
      then Some NotAvailable
      else None
  | _, _, _ => None
  end.

Definition verdict (st : Store) (self_instance : option Instance)
    (today : Z) (data : Data) : option Rejection :=
  match date_rule today data with
  | Some r => Some r
  | None =>
      match capacity_rule (listings st) data with
      | Some r => Some r
      | None => conflict_rule (bookings st) self_instance data
      end
  end.

(* ===================================================================== *)
(** ** Properties the claims are stated with *)
(* ===================================================================== *)

(** A booking holds its dates while it is pending or confirmed. *)
Definition active (b : Booking) : Prop :=
  status b = "pending"%string ∨ status b = "confirmed"%string.

(** Half-open interval overlap of [[a, b)] and [[c, d)]. *)
Definition overlap (a b c d : Z) : Prop := a < d ∧ c < b.

(** An existing booking other than the one being updated, on listing [l],
    pending or confirmed, whose range meets [[ci, co)]. *)
Definition conflicting (st : Store) (self_instance : option Instance)
    (l ci co : Z) : Prop :=
  ∃ k b, bookings st !! k = Some b
         ∧ (∀ instance, self_instance = Some instance → k ≠ pk instance)
         ∧ listing_id b = l
         ∧ active b
         ∧ check_in_date b < co ∧ check_out_date b > ci.

(** No two distinct active bookings of one listing overlap. *)
Definition no_double_booking (st : Store) : Prop :=
  ∀ i j bi bj,
    i ≠ j →
    bookings st !! i = Some bi →
    bookings st !! j = Some bj →
    listing_id bi = listing_id bj →
    active bi → active bj →
    ¬ overlap (check_in_date bi) (check_out_date bi)
              (check_in_date bj) (check_out_date bj).

(** The data of a request. *)
Definition request_data (r : Request) : Data :=
  match r with
  | CreateBooking _ d => d
  | UpdateBooking _ _ d => d
  end.

(** The data passes the guard of the conflict check: both dates and a
    non-zero listing reference are supplied. *)
Definition reaches_conflict_check (d : Data) : Prop :=
  is_Some (data_check_in_date d)
  ∧ is_Some (data_check_out_date d)
  ∧ is_Some (truthy_int (data_listing_id d)).

(** The data leaves the listing, the dates and the status of a booking
    alone. *)
Definition leaves_slot (d : Data) : Prop :=
  data_listing_id d = None
  ∧ data_check_in_date d = None
  ∧ data_check_out_date d = None
  ∧ data_status d = None.

(** The data sets a status that is neither pending nor confirmed. *)
Definition sets_inactive (d : Data) : Prop :=
  ∃ s, data_status d = Some s
       ∧ s ≠ "pending"%string ∧ s ≠ "confirmed"%string.

(** The data cannot bring about a double booking unnoticed: it runs the
    conflict check, or it leaves the booking's listing, dates and status
    as they are, or it makes the booking inactive. *)
Definition checked_or_harmless (d : Data) : Prop :=
  reaches_conflict_check d ∨ leaves_slot d ∨ sets_inactive d.

(** The capacity block lets the data through: whenever it runs (non-zero
    listing reference and guest count), the listing exists and the guests
    fit. *)
Definition within_capacity (st : Store) (d : Data) : Prop :=
  ∀ l g,
    data_listing_id d = Some l → l ≠ 0 →
    data_guests d = Some g → g ≠ 0 →
    ∃ listing, listings st !! l = Some listing ∧ g ≤ max_guests listing.

(** The same dict with the entry [total_price] set to [t], or removed. *)
Definition with_total_price (t : option Z) (d : Data) : Data :=
  {| data_listing_id := data_listing_id d;
     data_user_id := data_user_id d;
     data_check_in_date := data_check_in_date d;
     data_check_out_date := data_check_out_date d;
     data_guests := data_guests d;
     data_total_price := t;
     data_status := data_status d;
     data_special_requests := data_special_requests d |}.

(* ===================================================================== *)
(** ** Concrete data used in examples *)
(* ===================================================================== *)

Module Example.

(** A booking model without column defaults. *)
Definition defaults : Defaults := mkDefaults None None None None.

Definition today : Z := Calendar.date 2029 12 1.

Definition jan (day : Z) : Z := Calendar.date 2030 1 day.

(** A pending booking of listing [l] from [ci] to [co] for two guests. *)
Definition candidate (l ci co : Z) : Data :=
  mkData (Some l) (Some 7) (Some ci) (Some co) (Some 2) None
         (Some "pending"%string) (Some ""%string).

(** A pending booking of listing [l] from Jan 10 to Jan 12 for [g]
    guests. *)
Definition party (l g : Z) : Data :=
  mkData (Some l) (Some 7) (Some (jan 10)) (Some (jan 12)) (Some g) None
         (Some "pending"%string) (Some ""%string).

(** One listing at 100 a night for up to four guests; no bookings. *)
Definition store0 : Store :=
  mkStore {[ 1 := mkListing 100 4 ]} ∅.

(** The same with a confirmed booking from Jan 1 to Jan 5. *)
Definition store1 : Store :=
  mkStore {[ 1 := mkListing 100 4 ]}
          {[ 1 := mkBooking 1 7 (jan 1) (jan 5) 2 400 "confirmed" "" ]}.

(** A listing stored under primary key 0, booked from Jan 1 to Jan 5. *)
Definition store_zero : Store :=
  mkStore {[ 0 := mkListing 100 4 ]}
          {[ 1 := mkBooking 0 7 (jan 1) (jan 5) 2 400 "confirmed" "" ]}.

(** A partial update that only moves the check-in date. *)
Definition move_check_in (ci : Z) : Data :=
  mkData None None (Some ci) None None None None None.

(** A partial update that only changes the number of guests. *)
Definition more_guests : Data :=
  mkData None None None None (Some 3) None None None.

(** A partial update that only cancels the booking. *)
Definition cancel : Data :=
  mkData None None None None None None (Some "cancelled"%string) None.

(** A partial update that names a listing and nothing else. *)
Definition move_listing (l : Z) : Data :=
  mkData (Some l) None None None None None None None.

End Example.

(* ===================================================================== *)
(** ** ListingSerializer *)
(* ===================================================================== *)

(** What a field validator of the listing serializer does with a value:
    it hands the value back or raises a validation error with a message. *)
Inductive FieldResult (A : Type) : Type :=
| Accepted (value : A)
| Rejected (message : string).
Arguments Accepted {A} value.
Arguments Rejected {A} message.

(** [ListingSerializer.validate_price_per_night]; the price is an exact
    amount, as in [Listing]. *)
Definition validate_price_per_night (value : Z) : FieldResult Z :=
  if value <=? 0
  then Rejected "Price per night must be positive."
  else Accepted value.

(** [ListingSerializer.validate_max_guests] *)
Definition validate_max_guests (value : Z) : FieldResult Z :=
  if value <=? 0
  then Rejected "Max guests must be at least 1."
  else Accepted value.

(* ===================================================================== *)
(** ** Further properties the theorems are stated with *)
(* ===================================================================== *)

(** The ranges [[a, b)] and [[c, d)] have a night in common. *)
Definition shares_night (a b c d : Z) : Prop :=
  ∃ night, a ≤ night < b ∧ c ≤ night < d.

(** The data of a full update that writes a booking's own values back. *)
Definition own_values (b : Booking) : Data :=
  {| data_listing_id := Some (listing_id b);
     data_user_id := Some (user_id b);
     data_check_in_date := Some (check_in_date b);
     data_check_out_date := Some (check_out_date b);
     data_guests := Some (guests b);
     data_total_price := None;
     data_status := Some (status b);
     data_special_requests := Some (special_requests b) |}.

(** The number of create requests in a sequence. *)
Fixpoint creations (rs : list Request) : nat :=
  match rs with
  | [] => 0%nat
  | CreateBooking _ _ :: rs' => S (creations rs')
  | UpdateBooking _ _ _ :: rs' => creations rs'
  end.

(** The value a column of a new row gets: the entry of the data if there
    is one, the column default otherwise. *)
Definition supplied {A} (given default_value : option A) : option A :=
  match given with
  | Some v => Some v
  | None => default_value
  end.

(** The character [c] does not occur in the string. *)
Fixpoint free_of (c : Ascii.ascii) (s : string) : Prop :=
  match s with
  | EmptyString => True
  | String a s' => a ≠ c ∧ free_of c s'
  end.

(* ===================================================================== *)
(** ** Lemmas about the model *)
(* ===================================================================== *)

Ltac db_unfold :=
  unfold index, column, Listing_objects_get, Booking_objects_get, qs_exists,
    save, new_pk, except_DoesNotExist, truthy_date in *;
  unfold bind, ret, raise in *.

Lemma validate_rules self_instance today data st :
  validate self_instance today data st =
    (match verdict st self_instance today data with
     | Some r => Raised (ValidationError r)
     | None => Returned data
     end, st).
Proof.
  unfold validate, verdict, date_rule, capacity_rule, conflict_rule, selected.
  db_unfold.
  destruct (data_check_in_date data) as [ci|],
           (data_check_out_date data) as [co|],
           (truthy_int (data_listing_id data)) as [l|],
           (truthy_int (data_guests data)) as [g|]; simpl;
    repeat (first
      [ done
      | match goal with
        | |- context [if ?c then _ else _] => destruct c eqn:?; simpl
        | |- context [listings st !! ?l] =>
            destruct (listings st !! l) eqn:?; simpl
        | |- context [match ?s with Some _ => _ | None => _ end] =>
            is_var s; destruct s; simpl
        end ]).
Qed.

Lemma validate_store self_instance today data st :
  (validate self_instance today data st).2 = st.
Proof. by rewrite validate_rules. Qed.

Lemma status_in_active b :
  status_in ["confirmed"; "pending"]%string (status b) = true ↔ active b.
Proof.
  unfold status_in, active. simpl.
  rewrite orb_false_r, orb_true_iff, !String.eqb_eq. tauto.
Qed.

Lemma filter_conflicting_spec l co ci k b :
  filter_conflicting l co ci Booking_objects k b = true ↔
    listing_id b = l ∧ active b
    ∧ check_in_date b < co ∧ check_out_date b > ci.
Proof.
  unfold filter_conflicting, Booking_objects.
  rewrite !andb_true_iff, status_in_active, Z.eqb_eq, Z.ltb_lt, Z.gtb_ltb,
    Z.ltb_lt.
  intuition lia.
Qed.

Lemma selected_spec self_instance l co ci k b :
  selected self_instance l co ci k b = true ↔
    (∀ instance, self_instance = Some instance → k ≠ pk instance)
    ∧ listing_id b = l ∧ active b
    ∧ check_in_date b < co ∧ check_out_date b > ci.
Proof.
  unfold selected. destruct self_instance as [instance|].
  - unfold exclude_id.
    rewrite andb_true_iff, filter_conflicting_spec, negb_true_iff, Z.eqb_neq.
    split.
    + intros [? ?]. split; [|done]. by intros ? [= <-].
    + intros [Hk ?]. split; [done|]. by apply Hk.
  - rewrite filter_conflicting_spec. split; [|tauto].
    intros ?. split; [|done]. by intros ? [=].
Qed.

Lemma exists_selected st self_instance l co ci :
  existsb (λ kb, selected self_instance l co ci kb.1 kb.2)
          (map_to_list (bookings st)) = true
  ↔ conflicting st self_instance l ci co.
Proof.
  rewrite existsb_exists. unfold conflicting. split.
  - intros [[k b] [Hin Hsel]]. simpl in Hsel.
    apply list_elem_of_In, elem_of_map_to_list in Hin.
    apply selected_spec in Hsel. exists k, b. tauto.
  - intros (k & b & Hkb & ?). exists (k, b). split.
    + by apply list_elem_of_In, elem_of_map_to_list.
    + simpl. apply selected_spec. tauto.
Qed.

Lemma create_returned defaults d st instance st' :
  create defaults d st = (Returned instance, st') →
  ∃ l listing ci co,
    data_listing_id d = Some l
    ∧ listings st !! l = Some listing
    ∧ data_check_in_date d = Some ci
    ∧ data_check_out_date d = Some co
    ∧ listing_id (row instance) = l
    ∧ check_in_date (row instance) = ci
    ∧ check_out_date (row instance) = co
    ∧ total_price (row instance) = price_per_night listing * (co - ci)
    ∧ pk instance = last_pk (bookings st) + 1
    ∧ st' = mkStore (listings st)
                    (<[pk instance := row instance]> (bookings st)).
Proof.
  unfold create, Booking_objects_create. db_unfold. simpl.
  intros H.
  repeat (case_match; simplify_eq/=).
  all: eexists _, _, _, _; repeat split; eauto.
Qed.

Lemma create_raised defaults d st e st' :
  create defaults d st = (Raised e, st') → st' = st.
Proof.
  unfold create, Booking_objects_create. db_unfold. simpl.
  intros H.
  by repeat (case_match; simplify_eq/=).
Qed.

Lemma update_returns instance d st :
  update instance d st =
    (Returned (mkInstance (pk instance) (setattrs (row instance) d)),
     mkStore (listings st)
             (<[pk instance := setattrs (row instance) d]> (bookings st))).
Proof. reflexivity. Qed.

Lemma serializer_create_unfold defaults today d st :
  serializer_create defaults today d st =
    match missing_required defaults d with
    | [] =>
        match verdict st None today (writable d) with
        | Some r => (Raised (ValidationError r), st)
        | None => create defaults (writable d) st
        end
    | missing => (Raised (RequiredFieldsMissing missing), st)
    end.
Proof.
  unfold serializer_create, bind, to_internal_value.
  destruct (missing_required defaults d); [|done]. unfold ret.
  rewrite validate_rules. by destruct (verdict _ _ _ _).
Qed.

Lemma serializer_update_unfold today id d st :
  serializer_update today id d st =
    match bookings st !! id with
    | None => (Raised DoesNotExist, st)
    | Some b =>
        match verdict st (Some (mkInstance id b)) today (writable d) with
        | Some r => (Raised (ValidationError r), st)
        | None => update (mkInstance id b) (writable d) st
        end
    end.
Proof.
  unfold serializer_update, bind, Booking_objects_get, to_internal_value, ret.
  destruct (bookings st !! id); [|done].
  rewrite validate_rules. by destruct (verdict _ _ _ _).
Qed.

Lemma perform_raised defaults r st e st' :
  perform defaults r st = (Raised e, st') → st' = st.
Proof.
  destruct r as [today d|today id d]; simpl.
  - rewrite serializer_create_unfold.
    destruct (missing_required _ _); [|by intros [= _ <-]].
    destruct (verdict _ _ _ _); [by intros [= _ <-]|].
    apply create_raised.
  - rewrite serializer_update_unfold.
    destruct (bookings st !! id); [|by intros [= _ <-]].
    destruct (verdict _ _ _ _); [by intros [= _ <-]|].
    by rewrite update_returns.
Qed.

Lemma last_pk_bound (bs : gmap Z Booking) :
  0 ≤ last_pk bs ∧ ∀ k, is_Some (bs !! k) → k ≤ last_pk bs.
Proof.
  unfold last_pk.
  apply (map_fold_weak_ind
           (λ r (m : gmap Z Booking), 0 ≤ r ∧ ∀ k, is_Some (m !! k) → k ≤ r)).
  - split; [done|]. intros k [b Hk]. by rewrite lookup_empty in Hk.
  - intros i x m r _ [Hr IH]. split; [lia|]. intros k Hk.
    destruct (decide (k = i)) as [->|Hne]; [lia|].
    rewrite lookup_insert_ne in Hk by done. specialize (IH k Hk). lia.
Qed.

Lemma fresh_pk_unused (bs : gmap Z Booking) : bs !! (last_pk bs + 1) = None.
Proof.
  destruct (bs !! (last_pk bs + 1)) as [b|] eqn:Hk; [|done].
  destruct (last_pk_bound bs) as [_ Hb].
  specialize (Hb (last_pk bs + 1)). rewrite Hk in Hb.
  specialize (Hb (mk_is_Some _ _ eq_refl)). lia.
Qed.

Lemma column_supplied {A} (given default_value : option A) st :
  column given default_value st =
    match supplied given default_value with
    | Some v => (Returned v, st)
    | None => (Raised IntegrityError, st)
    end.
Proof. by destruct given, default_value. Qed.

(** [create], step by step: the first failing step decides the exception,
    and the row is written only when every step succeeded. *)
Lemma create_steps defaults d st :
  create defaults d st =
    match data_listing_id d with
    | None => (Raised (KeyError "listing_id"), st)
    | Some l =>
        match listings st !! l with
        | None => (Raised DoesNotExist, st)
        | Some listing =>
            match data_check_in_date d with
            | None => (Raised (KeyError "check_in_date"), st)
            | Some ci =>
                match data_check_out_date d with
                | None => (Raised (KeyError "check_out_date"), st)
                | Some co =>
                    match supplied (data_user_id d) (default_user_id defaults),
                          supplied (data_guests d) (default_guests defaults),
                          supplied (data_status d) (default_status defaults),
                          supplied (data_special_requests d)
                                   (default_special_requests defaults) with
                    | Some u, Some g, Some s, Some r =>
                        let b := mkBooking l u ci co g
                                   (price_per_night listing * (co - ci)) s r in
                        (Returned (mkInstance (last_pk (bookings st) + 1) b),
                         mkStore (listings st)
                                 (<[last_pk (bookings st) + 1 := b]>
                                    (bookings st)))
                    | _, _, _, _ => (Raised IntegrityError, st)
                    end
                end
            end
        end
    end.
Proof.
  unfold create, Booking_objects_create, bind at 1 2 3 4, index,
    Listing_objects_get, ret, raise.
  destruct (data_listing_id d) as [l|]; [|done].
  destruct (listings st !! l) as [listing|]; [|done].
  destruct (data_check_in_date d) as [ci|]; [|done].
  destruct (data_check_out_date d) as [co|]; [|done].
  simpl. unfold bind. simpl. rewrite !column_supplied.
  destruct (supplied (data_user_id d) _) as [u|]; [|done].
  rewrite !column_supplied.
  destruct (supplied (data_guests d) _) as [g|]; [|done].
  rewrite !column_supplied.
  destruct (supplied (data_status d) _) as [s|]; [|done].
  rewrite !column_supplied.
  by destruct (supplied (data_special_requests d) _) as [r|].
Qed.

Lemma serializer_create_returned defaults today d st instance st' :
  serializer_create defaults today d st = (Returned instance, st') →
  verdict st None today (writable d) = None
  ∧ ∃ l listing ci co u g s r,
      data_listing_id d = Some l
      ∧ listings st !! l = Some listing
      ∧ data_check_in_date d = Some ci
      ∧ data_check_out_date d = Some co
      ∧ supplied (data_user_id d) (default_user_id defaults) = Some u
      ∧ supplied (data_guests d) (default_guests defaults) = Some g
      ∧ supplied (data_status d) (default_status defaults) = Some s
      ∧ supplied (data_special_requests d)
                 (default_special_requests defaults) = Some r
      ∧ instance = mkInstance (last_pk (bookings st) + 1)
                     (mkBooking l u ci co g
                        (price_per_night listing * (co - ci)) s r)
      ∧ st' = mkStore (listings st)
                (<[pk instance := row instance]> (bookings st)).
Proof.
  rewrite serializer_create_unfold.
  destruct (missing_required _ _); [|done].
  destruct (verdict _ _ _ _); [done|]. rewrite create_steps. simpl.
  destruct (data_listing_id d) as [l|]; [|done].
  destruct (listings st !! l) as [listing|] eqn:Hlook; [|done].
  destruct (data_check_in_date d) as [ci|]; [|done].
  destruct (data_check_out_date d) as [co|]; [|done].
  destruct (supplied (data_user_id d) _) as [u|]; [|done].
  destruct (supplied (data_guests d) _) as [g|]; [|done].
  destruct (supplied (data_status d) _) as [s|]; [|done].
  destruct (supplied (data_special_requests d) _) as [r|]; [|done].
  intros [= <- <-]. split; [done|].
  by exists l, listing, ci, co, u, g, s, r.
Qed.

Lemma missing_required_nil defaults d :
  missing_required defaults d = [] ↔
    is_Some (data_listing_id d)
    ∧ is_Some (data_user_id d)
    ∧ is_Some (data_check_in_date d)
    ∧ is_Some (data_check_out_date d)
    ∧ is_Some (supplied (data_guests d) (default_guests defaults))
    ∧ is_Some (supplied (data_status d) (default_status defaults))
    ∧ is_Some (supplied (data_special_requests d)
                        (default_special_requests defaults)).
Proof.
  unfold missing_required, lacking, supplied.
  destruct (data_listing_id d), (data_user_id d), (data_check_in_date d),
    (data_check_out_date d), (data_guests d), (default_guests defaults),
    (data_status d), (default_status defaults), (data_special_requests d),
    (default_special_requests defaults); simpl;
    (split; [intros ?; try done; repeat split; eauto
            |intros (? & ? & ? & ? & ? & ? & ?); try done;
             repeat match goal with
                    | H : is_Some None |- _ => by destruct H
                    end]).
Qed.

Lemma serializer_create_required defaults today d st instance st' :
  serializer_create defaults today d st = (Returned instance, st') →
  missing_required defaults d = [].
Proof.
  rewrite serializer_create_unfold.
  by destruct (missing_required _ _).
Qed.

Lemma truthy_int_Some v n : truthy_int v = Some n ↔ v = Some n ∧ n ≠ 0.
Proof.
  unfold truthy_int. destruct v as [m|].
  - destruct (Z.eqb_spec m 0); split; try done.
    + intros [[= ->] ?]. done.
    + intros [= ->]. done.
    + by intros [-> ?].
  - split; [done|]. by intros [? ?].
Qed.

Lemma truthy_int_None v : truthy_int v = None ↔ v = None ∨ v = Some 0.
Proof.
  unfold truthy_int. destruct v as [m|].
  - destruct (Z.eqb_spec m 0) as [->|]; split; try done.
    + by right.
    + intros [|[= ->]]; done.
  - split; [|done]. by left.
Qed.

Lemma conflict_rule_None st self_instance d ci co l :
  data_check_in_date d = Some ci →
  data_check_out_date d = Some co →
  truthy_int (data_listing_id d) = Some l →
  conflict_rule (bookings st) self_instance d = None
  ↔ ¬ conflicting st self_instance l ci co.
Proof.
  intros Hci Hco Hl. unfold conflict_rule. rewrite Hci, Hco, Hl.
  rewrite <- exists_selected.
  destruct (existsb _ _); split; intros; done.
Qed.

Lemma conflict_rule_Some st self_instance d ci co l :
  data_check_in_date d = Some ci →
  data_check_out_date d = Some co →
  truthy_int (data_listing_id d) = Some l →
  conflict_rule (bookings st) self_instance d = Some NotAvailable
  ↔ conflicting st self_instance l ci co.
Proof.
  intros Hci Hco Hl. unfold conflict_rule. rewrite Hci, Hco, Hl.
  rewrite <- exists_selected.
  destruct (existsb _ _); split; intros; done.
Qed.

Lemma verdict_None_conflict st self_instance today d ci co l :
  verdict st self_instance today d = None →
  data_check_in_date d = Some ci →
  data_check_out_date d = Some co →
  truthy_int (data_listing_id d) = Some l →
  ¬ conflicting st self_instance l ci co.
Proof.
  unfold verdict. intros Hv Hci Hco Hl.
  destruct (date_rule today d); [done|].
  destruct (capacity_rule (listings st) d); [done|].
  by eapply conflict_rule_None.
Qed.

(** Writing a row that conflicts with no other row keeps the table free of
    double bookings. *)
Lemma insert_no_double_booking st self_instance k b' :
  no_double_booking st →
  (∀ instance, self_instance = Some instance → pk instance = k) →
  ¬ conflicting st self_instance
      (listing_id b') (check_in_date b') (check_out_date b') →
  no_double_booking (mkStore (listings st) (<[k := b']> (bookings st))).
Proof.
  intros Hinv Hself Hnc i j bi bj Hij Hi Hj Hl Hai Haj [Ho1 Ho2].
  simpl in Hi, Hj.
  destruct (decide (i = k)) as [->|Hik], (decide (j = k)) as [->|Hjk].
  - done.
  - rewrite lookup_insert_eq in Hi. rewrite lookup_insert_ne in Hj by done.
    injection Hi as <-. apply Hnc. exists j, bj.
    repeat split; try done; try lia.
    intros instance Hs. by rewrite (Hself _ Hs).
  - rewrite lookup_insert_eq in Hj. rewrite lookup_insert_ne in Hi by done.
    injection Hj as <-. apply Hnc. exists i, bi.
    repeat split; try done; try lia.
    intros instance Hs. by rewrite (Hself _ Hs).
  - rewrite lookup_insert_ne in Hi, Hj by done.
    by apply (Hinv i j bi bj).
Qed.

(** Writing an inactive row keeps the table free of double bookings. *)
Lemma insert_inactive_no_double_booking st k b' :
  no_double_booking st →
  ¬ active b' →
  no_double_booking (mkStore (listings st) (<[k := b']> (bookings st))).
Proof.
  intros Hinv Hb' i j bi bj Hij Hi Hj Hl Hai Haj Hov. simpl in Hi, Hj.
  destruct (decide (i = k)) as [->|Hik].
  { rewrite lookup_insert_eq in Hi. by injection Hi as <-. }
  destruct (decide (j = k)) as [->|Hjk].
  { rewrite lookup_insert_eq in Hj. by injection Hj as <-. }
  rewrite lookup_insert_ne in Hi, Hj by done.
  by apply (Hinv i j bi bj).
Qed.

(** Rewriting a row without touching its listing, dates and status keeps
    the table free of double bookings. *)
Lemma rewrite_slot_no_double_booking st k b b' :
  no_double_booking st →
  bookings st !! k = Some b →
  listing_id b' = listing_id b →
  check_in_date b' = check_in_date b →
  check_out_date b' = check_out_date b →
  status b' = status b →
  no_double_booking (mkStore (listings st) (<[k := b']> (bookings st))).
Proof.
  intros Hinv Hk Hl Hci Hco Hs i j bi bj Hij Hi Hj Hlij Hai Haj Hov.
  simpl in Hi, Hj. unfold active in *.
  destruct (decide (i = k)) as [->|Hik], (decide (j = k)) as [->|Hjk].
  - done.
  - rewrite lookup_insert_eq in Hi. rewrite lookup_insert_ne in Hj by done.
    injection Hi as <-. rewrite Hl, Hci, Hco, Hs in *.
    by apply (Hinv k j b bj).
  - rewrite lookup_insert_eq in Hj. rewrite lookup_insert_ne in Hi by done.
    injection Hj as <-. rewrite Hl, Hci, Hco, Hs in *.
    by apply (Hinv i k bi b).
  - rewrite lookup_insert_ne in Hi, Hj by done.
    by apply (Hinv i j bi bj).
Qed.

Lemma inactive_status b s :
  status b = s → s ≠ "pending"%string → s ≠ "confirmed"%string → ¬ active b.
Proof. intros <- ? ? [?|?]; done. Qed.

Lemma perform_no_double_booking defaults r st instance st' :
  no_double_booking st →
  checked_or_harmless (request_data r) →
  perform defaults r st = (Returned instance, st') →
  no_double_booking st'.
Proof.
  intros Hinv [([ci Hci] & [co Hco] & [l Hl])
              |[(Hl & Hci & Hco & Hs)|(s & Hs & Hsp & Hsc)]].
  - destruct r as [today d|today id d]; simpl in *.
    + rewrite serializer_create_unfold.
      destruct (missing_required _ _); [|done].
      destruct (verdict _ _ _ _) eqn:Hv; [done|].
      intros (l' & ? & ci' & co' & Hl' & _ & Hci' & Hco' & Hrl & Hrci & Hrco
              & _ & _ & ->)%create_returned.
      simpl in Hl', Hci', Hco'.
      apply (insert_no_double_booking _ None); [done|done|].
      apply truthy_int_Some in Hl as Hl2. destruct Hl2 as [Hl2 _].
      rewrite Hrl, Hrci, Hrco.
      eapply verdict_None_conflict; [exact Hv|simpl; congruence..].
    + rewrite serializer_update_unfold.
      destruct (bookings st !! id) as [b|] eqn:Hb; [|done].
      destruct (verdict _ _ _ _) eqn:Hv; [done|].
      rewrite update_returns. intros [= _ <-]. simpl.
      apply (insert_no_double_booking _ (Some (mkInstance id b)));
        [done|by intros ? [= <-]|].
      apply truthy_int_Some in Hl as Hl2. destruct Hl2 as [Hl2 _].
      simpl. rewrite Hl2, Hci, Hco. simpl.
      eapply verdict_None_conflict; [exact Hv|done..].
  - destruct r as [today d|today id d]; simpl in *.
    + intros Hreq%serializer_create_required.
      apply missing_required_nil in Hreq as ([? Hl'] & _). congruence.
    + rewrite serializer_update_unfold.
      destruct (bookings st !! id) as [b|] eqn:Hb; [|done].
      destruct (verdict _ _ _ _) eqn:Hv; [done|].
      rewrite update_returns. intros [= _ <-]. simpl.
      apply (rewrite_slot_no_double_booking _ _ b); try done; simpl.
      * by rewrite Hl.
      * by rewrite Hci.
      * by rewrite Hco.
      * by rewrite Hs.
  - destruct r as [today d|today id d]; simpl in *.
    + intros (_ & l & listing & ci & co & u & g & s' & r & _ & _ & _ & _ & _
              & _ & Hs' & _ & -> & ->)%serializer_create_returned.
      simpl. apply insert_inactive_no_double_booking; [done|].
      rewrite Hs in Hs'. simpl in Hs'. injection Hs' as <-.
      by apply (inactive_status _ s).
    + rewrite serializer_update_unfold.
      destruct (bookings st !! id) as [b|] eqn:Hb; [|done].
      destruct (verdict _ _ _ _) eqn:Hv; [done|].
      rewrite update_returns. intros [= _ <-]. simpl.
      apply insert_inactive_no_double_booking; [done|].
      apply (inactive_status _ s); [|done..]. simpl. by rewrite Hs.
Qed.

Lemma date_rule_present today d ci co :
  data_check_in_date d = Some ci →
  data_check_out_date d = Some co →
  date_rule today d =
    if co <=? ci then Some CheckOutNotAfterCheckIn
    else if ci <? today then Some CheckInInPast
    else None.
Proof. intros Hci Hco. unfold date_rule. by rewrite Hci, Hco. Qed.

Lemma date_rule_rejections today d r :
  date_rule today d = Some r →
  r = CheckOutNotAfterCheckIn ∨ r = CheckInInPast.
Proof. unfold date_rule. repeat case_match; naive_solver. Qed.

Lemma capacity_rule_rejections ls d r :
  capacity_rule ls d = Some r →
  r = InvalidListing ∨ ∃ g m, r = ExceedsCapacity g m.
Proof. unfold capacity_rule. repeat case_match; naive_solver. Qed.

Lemma conflict_rule_rejections bs self_instance d r :
  conflict_rule bs self_instance d = Some r → r = NotAvailable.
Proof. unfold conflict_rule. repeat case_match; naive_solver. Qed.

Lemma capacity_rule_skipped ls d :
  data_guests d = Some 0 ∨ data_guests d = None
  ∨ data_listing_id d = Some 0 ∨ data_listing_id d = None →
  capacity_rule ls d = None.
Proof.
  unfold capacity_rule.
  intros [H|[H|[H|H]]]; rewrite H; simpl; by repeat case_match.
Qed.

Lemma capacity_rule_None st d :
  capacity_rule (listings st) d = None ↔ within_capacity st d.
Proof.
  unfold capacity_rule, within_capacity.
  destruct (truthy_int (data_listing_id d)) as [l|] eqn:Hl.
  - apply truthy_int_Some in Hl as [Hl Hl0].
    destruct (truthy_int (data_guests d)) as [g|] eqn:Hg.
    + apply truthy_int_Some in Hg as [Hg Hg0].
      destruct (listings st !! l) as [listing|] eqn:Hlook.
      * rewrite Z.gtb_ltb. destruct (Z.ltb_spec (max_guests listing) g).
        -- split; [done|]. intros H'.
           destruct (H' l g) as (x & Hx & ?); try done. simplify_eq. lia.
        -- split; [|done]. intros _ l' g' ? ? ? ?. simplify_eq.
           exists listing. split; [done|lia].
      * split; [done|]. intros H'.
        destruct (H' l g) as (x & Hx & ?); try done. congruence.
    + apply truthy_int_None in Hg. split; [|done].
      intros _ l' g' ? ? ? ?. destruct Hg; congruence.
  - apply truthy_int_None in Hl. split; [|done].
    intros _ l' g' ? ? ? ?. destruct Hl; congruence.
Qed.

(* ===================================================================== *)
(** ** ReviewSerializer.validate_rating *)
(* ===================================================================== *)

(** C5. For every integer rating, [validate_rating] raises a validation
    error exactly when the value is outside [1, 5], and returns the value
    unchanged exactly when it is inside; 1 and 5 are returned unchanged. *)
Theorem validate_rating_range (value : Z) :
  (validate_rating value = Raised (ValidationError RatingOutOfRange)
   ↔ (value < 1 ∨ 5 < value))
  ∧ (validate_rating value = Returned value ↔ 1 ≤ value ≤ 5)
  ∧ validate_rating 1 = Returned 1
  ∧ validate_rating 5 = Returned 5.
Proof.
  unfold validate_rating.
  destruct (Z.leb_spec 1 value), (Z.leb_spec value 5); simpl;
    repeat split; intros; try done; try lia.
Qed.

(* ===================================================================== *)
(** ** BookingSerializer.validate: dates *)
(* ===================================================================== *)

(** C4. With both dates present, a check-out on or before the check-in is
    rejected with the date-ordering error; a check-out one day after the
    check-in is not rejected by that rule, and the data is returned when
    the check-in is not in the past, the guests fit and no booking
    conflicts. *)
Theorem date_order_rule st self_instance today data ci co :
  data_check_in_date data = Some ci →
  data_check_out_date data = Some co →
  (co ≤ ci →
   validate self_instance today data st =
     (Raised (ValidationError CheckOutNotAfterCheckIn), st))
  ∧ (co = ci + 1 →
     (validate self_instance today data st).1
       ≠ Raised (ValidationError CheckOutNotAfterCheckIn)
     ∧ (today ≤ ci →
        within_capacity st data →
        (∀ l, data_listing_id data = Some l → l ≠ 0 →
              ¬ conflicting st self_instance l ci co) →
        validate self_instance today data st = (Returned data, st))).
Proof.
  intros Hci Hco. rewrite validate_rules. unfold verdict.
  rewrite (date_rule_present _ _ _ _ Hci Hco).
  split.
  - intros Hle. by destruct (Z.leb_spec co ci); [|lia].
  - intros ->. destruct (Z.leb_spec (ci + 1) ci); [lia|]. split.
    + simpl. destruct (ci <? today); [done|].
      destruct (capacity_rule _ _) as [r|] eqn:Hc.
      * apply capacity_rule_rejections in Hc as [->|(? & ? & ->)]; done.
      * destruct (conflict_rule _ _ _) as [r|] eqn:Hq; [|done].
        by apply conflict_rule_rejections in Hq as ->.
    + intros Htoday Hcap Hfree.
      destruct (Z.ltb_spec ci today); [lia|].
      apply capacity_rule_None in Hcap. rewrite Hcap.
      destruct (truthy_int (data_listing_id data)) as [l|] eqn:Hl.
      * apply truthy_int_Some in Hl as Hl'. destruct Hl' as [Hl1 Hl0].
        specialize (Hfree l Hl1 Hl0).
        apply (conflict_rule_None _ _ _ _ _ _ Hci Hco Hl) in Hfree.
        by rewrite Hfree.
      * unfold conflict_rule. by rewrite Hci, Hco, Hl.
Qed.

Lemma date_order_rule_witness :
  validate None Example.today
    (Example.candidate 1 (Example.jan 10) (Example.jan 11)) Example.store1
  = (Returned (Example.candidate 1 (Example.jan 10) (Example.jan 11)),
     Example.store1)
  ∧ validate None Example.today
      (Example.candidate 1 (Example.jan 10) (Example.jan 10)) Example.store1
    = (Raised (ValidationError CheckOutNotAfterCheckIn), Example.store1).
Proof.
  split.
  - refine (proj2 (proj2 (date_order_rule Example.store1 None Example.today
             (Example.candidate 1 (Example.jan 10) (Example.jan 11))
             (Example.jan 10) (Example.jan 11) eq_refl eq_refl)
             eq_refl) _ _ _).
    + vm_compute. discriminate.
    + intros l g [= <-] _ [= <-] _. exists (mkListing 100 4).
      split; [reflexivity|vm_compute; discriminate].
    + intros l [= <-] _ (k & b & Hkb & _ & _ & _ & _ & Hout).
      unfold Example.store1 in Hkb. simpl in Hkb.
      apply lookup_singleton_Some in Hkb as [_ <-].
      vm_compute in Hout. discriminate.
  - refine (proj1 (date_order_rule Example.store1 None Example.today
             (Example.candidate 1 (Example.jan 10) (Example.jan 10))
             (Example.jan 10) (Example.jan 10) eq_refl eq_refl) _).
    vm_compute. discriminate.
Defined.

(** C7, as the code has it. With both dates present, a check-in earlier
    than the current date is rejected: by the past-date error, or by the
    date-ordering error when the check-out is not after the check-in. *)
Theorem past_check_in_rejected st self_instance today data ci co :
  data_check_in_date data = Some ci →
  data_check_out_date data = Some co →
  ci < today →
  ∃ r, validate self_instance today data st = (Raised (ValidationError r), st)
       ∧ (r = CheckOutNotAfterCheckIn ∨ r = CheckInInPast).
Proof.
  intros Hci Hco Hpast. rewrite validate_rules. unfold verdict.
  rewrite (date_rule_present _ _ _ _ Hci Hco).
  destruct (Z.leb_spec co ci); [by eauto|].
  destruct (Z.ltb_spec ci today); [by eauto|lia].
Qed.

Lemma past_check_in_rejected_witness :
  ∃ r, validate None Example.today
         (Example.candidate 1 (Example.today - 1) (Example.jan 3))
         Example.store0
       = (Raised (ValidationError r), Example.store0)
       ∧ (r = CheckOutNotAfterCheckIn ∨ r = CheckInInPast).
Proof.
  apply (past_check_in_rejected Example.store0 None Example.today
           (Example.candidate 1 (Example.today - 1) (Example.jan 3))
           (Example.today - 1) (Example.jan 3) eq_refl eq_refl).
  vm_compute. reflexivity.
Defined.

(** C7, as stated, fails: a candidate that carries a check-in date in the
    past and no check-out date passes validation. *)
Lemma past_check_in_without_check_out_accepted :
  data_check_in_date (Example.move_check_in (Example.today - 1))
  = Some (Example.today - 1)
  ∧ Example.today - 1 < Example.today
  ∧ validate
      (Some (mkInstance 1 (mkBooking 1 7 (Example.jan 1) (Example.jan 5)
                                     2 400 "confirmed" "")))
      Example.today (Example.move_check_in (Example.today - 1))
      Example.store1
    = (Returned (Example.move_check_in (Example.today - 1)), Example.store1).
Proof. split; [reflexivity|]. split; [lia|]. vm_compute. reflexivity. Qed.

(* ===================================================================== *)
(** ** BookingSerializer.validate: capacity *)
(* ===================================================================== *)

(** C10. When the guest count is 0, or the listing reference is 0 or
    absent, the capacity block is skipped: validation raises neither the
    capacity error nor the invalid-listing error, and its outcome does not
    depend on the listing table at all. *)
Theorem falsy_guard_skips_capacity st self_instance today data :
  data_guests data = Some 0
  ∨ data_listing_id data = Some 0
  ∨ data_listing_id data = None →
  (∀ g m, (validate self_instance today data st).1
            ≠ Raised (ValidationError (ExceedsCapacity g m)))
  ∧ (validate self_instance today data st).1
      ≠ Raised (ValidationError InvalidListing)
  ∧ (∀ ls, (validate self_instance today data (mkStore ls (bookings st))).1
           = (validate self_instance today data st).1).
Proof.
  intros Hfalsy.
  assert (Hskip : ∀ ls, capacity_rule ls data = None).
  { intros ls. apply capacity_rule_skipped. tauto. }
  assert (Hv : ∀ r, verdict st self_instance today data = Some r →
                    r = CheckOutNotAfterCheckIn ∨ r = CheckInInPast
                    ∨ r = NotAvailable).
  { intros r. unfold verdict. rewrite Hskip.
    destruct (date_rule today data) as [r'|] eqn:Hd.
    - intros [= <-]. apply date_rule_rejections in Hd. tauto.
    - intros Hq%conflict_rule_rejections. tauto. }
  rewrite validate_rules. simpl. repeat split.
  - intros g m. destruct (verdict _ _ _ _) as [r|] eqn:Hr; [|done].
    destruct (Hv r eq_refl) as [-> | [-> | ->]]; done.
  - destruct (verdict _ _ _ _) as [r|] eqn:Hr; [|done].
    destruct (Hv r eq_refl) as [-> | [-> | ->]]; done.
  - intros ls. rewrite validate_rules. unfold verdict. simpl.
    by rewrite !Hskip.
Qed.

Lemma falsy_guard_skips_capacity_witness :
  data_guests (Example.party 99 0) = Some 0
  ∧ (validate None Example.today (Example.party 99 0) Example.store1).1
    ≠ Raised (ValidationError InvalidListing).
Proof.
  split; [reflexivity|].
  apply (falsy_guard_skips_capacity Example.store1 None Example.today
           (Example.party 99 0)).
  left. reflexivity.
Defined.

(** C6, as the code has it. For a candidate with a non-zero listing
    reference and a non-zero guest count: if the reference resolves to a
    listing and the guests exceed its capacity, validation rejects, with
    the capacity error unless a date rule rejected first; guests equal to
    the capacity are never rejected by the capacity rule; and if the
    reference does not resolve, validation rejects, with the
    invalid-listing error unless a date rule rejected first. *)
Theorem capacity_rule_enforced st self_instance today data l g :
  data_listing_id data = Some l → l ≠ 0 →
  data_guests data = Some g → g ≠ 0 →
  (∀ listing, listings st !! l = Some listing →
     (g > max_guests listing →
      ∃ r, validate self_instance today data st
           = (Raised (ValidationError r), st)
           ∧ (r = CheckOutNotAfterCheckIn ∨ r = CheckInInPast
              ∨ r = ExceedsCapacity g (max_guests listing)))
     ∧ (g = max_guests listing →
        ∀ g' m', (validate self_instance today data st).1
                 ≠ Raised (ValidationError (ExceedsCapacity g' m'))))
  ∧ (listings st !! l = None →
     ∃ r, validate self_instance today data st
          = (Raised (ValidationError r), st)
          ∧ (r = CheckOutNotAfterCheckIn ∨ r = CheckInInPast
             ∨ r = InvalidListing)).
Proof.
  intros Hl Hl0 Hg Hg0.
  assert (Htl : truthy_int (data_listing_id data) = Some l)
    by by apply truthy_int_Some.
  assert (Htg : truthy_int (data_guests data) = Some g)
    by by apply truthy_int_Some.
  rewrite validate_rules. unfold verdict, capacity_rule.
  rewrite Htl, Htg. split.
  - intros listing Hlook. rewrite Hlook, Z.gtb_ltb. split.
    + intros Hgt. destruct (Z.ltb_spec (max_guests listing) g); [|lia].
      destruct (date_rule today data) as [r|] eqn:Hd.
      * exists r. split; [done|].
        apply date_rule_rejections in Hd. tauto.
      * eexists. split; [done|]. tauto.
    + intros ->.
      destruct (Z.ltb_spec (max_guests listing) (max_guests listing)); [lia|].
      intros g' m'. simpl.
      destruct (date_rule today data) as [r|] eqn:Hd.
      * by apply date_rule_rejections in Hd as [->| ->].
      * destruct (conflict_rule _ _ _) as [r|] eqn:Hq; [|done].
        by apply conflict_rule_rejections in Hq as ->.
  - intros Hlook. rewrite Hlook.
    destruct (date_rule today data) as [r|] eqn:Hd.
    + exists r. split; [done|]. apply date_rule_rejections in Hd. tauto.
    + eexists. split; [done|]. tauto.
Qed.

Lemma capacity_rule_enforced_witness :
  (∃ r, validate None Example.today (Example.party 1 5) Example.store1
        = (Raised (ValidationError r), Example.store1)
        ∧ (r = CheckOutNotAfterCheckIn ∨ r = CheckInInPast
           ∨ r = ExceedsCapacity 5 4))
  ∧ (∃ r, validate None Example.today (Example.party 99 5) Example.store1
          = (Raised (ValidationError r), Example.store1)
          ∧ (r = CheckOutNotAfterCheckIn ∨ r = CheckInInPast
             ∨ r = InvalidListing)).
Proof.
  split.
  - refine (proj1 (proj1 (capacity_rule_enforced Example.store1 None
              Example.today (Example.party 1 5)
              1 5 eq_refl _ eq_refl _) (mkListing 100 4) eq_refl) _);
      [lia|lia|simpl; lia].
  - refine (proj2 (capacity_rule_enforced Example.store1 None
              Example.today (Example.party 99 5)
              99 5 eq_refl _ eq_refl _) eq_refl);
      lia.
Defined.

(** C6, as stated, fails in its last part and, for a listing stored under
    primary key 0, in its first: an unresolvable listing reference passes
    validation when the guest count is absent or 0, and on listing 0 nine
    guests pass against a capacity of four. *)
Lemma capacity_claim_counterexample :
  (listings Example.store1 !! 99 = None
   ∧ validate (Some (mkInstance 1 (mkBooking 1 7 (Example.jan 1)
                                             (Example.jan 5) 2 400
                                             "confirmed" "")))
              Example.today (Example.move_listing 99) Example.store1
     = (Returned (Example.move_listing 99), Example.store1))
  ∧ (validate None Example.today (Example.party 99 0) Example.store1
     = (Returned (Example.party 99 0), Example.store1))
  ∧ (listings Example.store_zero !! 0 = Some (mkListing 100 4)
     ∧ validate None Example.today (Example.party 0 9) Example.store_zero
       = (Returned (Example.party 0 9), Example.store_zero)).
Proof. repeat split; vm_compute; reflexivity. Qed.

(* ===================================================================== *)
(** ** BookingSerializer.validate: conflicting bookings *)
(* ===================================================================== *)

(** C1, as the code has it. For a candidate with check-in, check-out and a
    non-zero listing reference: if some other pending or confirmed booking
    of that listing starts before the candidate's check-out and ends after
    its check-in, validation rejects; the availability error is raised
    only if there is such a booking; and when the date and capacity rules
    pass, validation rejects, with the availability error, if and only if
    there is one, and returns the data otherwise. Against a booking from
    Jan 1 to Jan 5, a candidate from Jan 4 to Jan 8 is rejected and one
    from Jan 5 to Jan 8 is not. *)
Theorem conflict_rule_decides :
  (∀ st self_instance today data ci co l,
     data_check_in_date data = Some ci →
     data_check_out_date data = Some co →
     data_listing_id data = Some l → l ≠ 0 →
     (conflicting st self_instance l ci co →
      ∃ r, validate self_instance today data st
           = (Raised (ValidationError r), st))
     ∧ (validate self_instance today data st
          = (Raised (ValidationError NotAvailable), st) →
        conflicting st self_instance l ci co)
     ∧ (ci < co → today ≤ ci → within_capacity st data →
        (validate self_instance today data st
           = (Raised (ValidationError NotAvailable), st)
         ↔ conflicting st self_instance l ci co)
        ∧ (validate self_instance today data st = (Returned data, st)
           ↔ ¬ conflicting st self_instance l ci co)))
  ∧ validate None Example.today
      (Example.candidate 1 (Example.jan 4) (Example.jan 8)) Example.store1
    = (Raised (ValidationError NotAvailable), Example.store1)
  ∧ validate None Example.today
      (Example.candidate 1 (Example.jan 5) (Example.jan 8)) Example.store1
    = (Returned (Example.candidate 1 (Example.jan 5) (Example.jan 8)),
       Example.store1).
Proof.
  split; [|split; vm_compute; reflexivity].
  intros st self_instance today data ci co l Hci Hco Hl Hl0.
  assert (Htl : truthy_int (data_listing_id data) = Some l)
    by by apply truthy_int_Some.
  pose proof (conflict_rule_None st self_instance data ci co l Hci Hco Htl)
    as Hnone.
  pose proof (conflict_rule_Some st self_instance data ci co l Hci Hco Htl)
    as Hsome.
  rewrite validate_rules. unfold verdict. split; [|split].
  - intros Hc%Hsome. rewrite Hc.
    destruct (date_rule today data); [by eauto|].
    destruct (capacity_rule _ data); by eauto.
  - destruct (date_rule today data) as [r|] eqn:Hd.
    { apply date_rule_rejections in Hd as [-> | ->]; done. }
    destruct (capacity_rule _ data) as [r|] eqn:Hcap.
    { apply capacity_rule_rejections in Hcap as [-> | (? & ? & ->)]; done. }
    destruct (conflict_rule _ _ _) as [r|] eqn:Hr; [|done].
    apply conflict_rule_rejections in Hr as ->. intros _. by apply Hsome.
  - intros Hlt Htoday Hcap.
    rewrite (date_rule_present _ _ _ _ Hci Hco).
    destruct (Z.leb_spec co ci); [lia|].
    destruct (Z.ltb_spec ci today); [lia|].
    apply capacity_rule_None in Hcap. rewrite Hcap.
    destruct (conflict_rule _ _ _) as [r|] eqn:Hr.
    + apply conflict_rule_rejections in Hr as ->.
      assert (conflicting st self_instance l ci co) as Hc by by apply Hsome.
      split; split; try done.
    + assert (¬ conflicting st self_instance l ci co) as Hc
        by by apply Hnone.
      split; split; try done.
Qed.

Lemma conflict_rule_decides_witness :
  conflicting Example.store1 None 1 (Example.jan 4) (Example.jan 8)
  ∧ validate None Example.today
      (Example.candidate 1 (Example.jan 4) (Example.jan 8)) Example.store1
    = (Raised (ValidationError NotAvailable), Example.store1).
Proof.
  assert (conflicting Example.store1 None 1 (Example.jan 4) (Example.jan 8))
    as Hc.
  { exists 1, (mkBooking 1 7 (Example.jan 1) (Example.jan 5) 2 400
                         "confirmed" "").
    repeat split; try reflexivity; try discriminate.
    right. reflexivity. }
  split; [exact Hc|].
  refine (proj2 (proj1 (proj2 (proj2 (proj1 conflict_rule_decides
            Example.store1 None Example.today
            (Example.candidate 1 (Example.jan 4) (Example.jan 8))
            (Example.jan 4) (Example.jan 8) 1
            eq_refl eq_refl eq_refl _)) _ _ _)) Hc).
  - lia.
  - vm_compute. reflexivity.
  - vm_compute. discriminate.
  - intros l g [= <-] _ [= <-] _. exists (mkListing 100 4).
    split; [reflexivity|vm_compute; discriminate].
Defined.

(** C1, as stated, fails in both directions: a candidate whose check-out
    is before its check-in is rejected although no booking exists at all,
    and on a listing stored under primary key 0 a candidate that overlaps
    a confirmed booking is accepted. *)
Lemma conflict_claim_counterexample :
  (validate None Example.today
     (Example.candidate 1 (Example.jan 5) (Example.jan 1)) Example.store0
   = (Raised (ValidationError CheckOutNotAfterCheckIn), Example.store0)
   ∧ ¬ conflicting Example.store0 None 1 (Example.jan 5) (Example.jan 1))
  ∧ (validate None Example.today
       (Example.candidate 0 (Example.jan 4) (Example.jan 8))
       Example.store_zero
     = (Returned (Example.candidate 0 (Example.jan 4) (Example.jan 8)),
        Example.store_zero)
     ∧ conflicting Example.store_zero None 0 (Example.jan 4) (Example.jan 8)).
Proof.
  split; split.
  - vm_compute. reflexivity.
  - intros (k & b & Hkb & _). unfold Example.store0 in Hkb. simpl in Hkb.
    by rewrite lookup_empty in Hkb.
  - vm_compute. reflexivity.
  - exists 1, (mkBooking 0 7 (Example.jan 1) (Example.jan 5) 2 400
                         "confirmed" "").
    repeat split; try reflexivity; try discriminate.
    right. reflexivity.
Qed.

(* ===================================================================== *)
(** ** Sequences of writes *)
(* ===================================================================== *)

(** C2, as the code has it. Starting from bookings without a double
    booking, every sequence of successful creates and updates leaves the
    bookings without a double booking (no two distinct pending or
    confirmed bookings of one listing have overlapping date ranges),
    provided the data of each operation supplies both dates and a non-zero
    listing reference, or supplies none of listing, dates and status, or
    sets a status other than pending and confirmed. *)
Theorem checked_writes_keep_no_double_booking defaults rs st st' :
  no_double_booking st →
  Forall (λ r, checked_or_harmless (request_data r)) rs →
  perform_all defaults rs st = Some st' →
  no_double_booking st'.
Proof.
  intros Hinv Hrs. revert st Hinv.
  induction Hrs as [|r rs Hr _ IH]; intros st Hinv; simpl.
  - by intros [= <-].
  - destruct (perform defaults r st) as [[instance|e] st1] eqn:Hp; [|done].
    apply IH. by eapply perform_no_double_booking.
Qed.

Lemma checked_writes_keep_no_double_booking_witness :
  ∃ st',
    perform_all Example.defaults
      [CreateBooking Example.today
         (Example.candidate 1 (Example.jan 1) (Example.jan 5));
       CreateBooking Example.today
         (Example.candidate 1 (Example.jan 5) (Example.jan 8));
       UpdateBooking Example.today 2
         (Example.candidate 1 (Example.jan 6) (Example.jan 9));
       UpdateBooking Example.today 1 Example.more_guests;
       UpdateBooking Example.today 1 Example.cancel]
      Example.store0 = Some st'
    ∧ bookings st' !! 1 = Some (mkBooking 1 7 (Example.jan 1) (Example.jan 5)
                                          3 400 "cancelled" "")
    ∧ bookings st' !! 2 = Some (mkBooking 1 7 (Example.jan 6) (Example.jan 9)
                                          2 300 "pending" "")
    ∧ no_double_booking st'.
Proof.
  eexists. split; [vm_compute; reflexivity|].
  split; [vm_compute; reflexivity|].
  split; [vm_compute; reflexivity|].
  eapply (checked_writes_keep_no_double_booking Example.defaults
            [CreateBooking Example.today
               (Example.candidate 1 (Example.jan 1) (Example.jan 5));
             CreateBooking Example.today
               (Example.candidate 1 (Example.jan 5) (Example.jan 8));
             UpdateBooking Example.today 2
               (Example.candidate 1 (Example.jan 6) (Example.jan 9));
             UpdateBooking Example.today 1 Example.more_guests;
             UpdateBooking Example.today 1 Example.cancel]
            Example.store0).
  - intros i j bi bj _ Hi. unfold Example.store0 in Hi. simpl in Hi.
    by rewrite lookup_empty in Hi.
  - repeat apply Forall_cons_2; [..|apply Forall_nil_2].
    + left. repeat split; simpl; eexists; reflexivity.
    + left. repeat split; simpl; eexists; reflexivity.
    + left. repeat split; simpl; eexists; reflexivity.
    + right. left. repeat split.
    + right. right. exists "cancelled"%string. repeat split; discriminate.
  - vm_compute. reflexivity.
Defined.

(** C2, as stated, fails: two creates, which the table stores under the
    primary keys 1 and 2, followed by an update of booking 2 that supplies
    only a new check-in date all succeed, and leave two pending bookings
    of listing 1 on the night of Jan 4 together. *)
Lemma partial_update_double_books :
  ∃ st',
    perform_all Example.defaults
      [CreateBooking Example.today
         (Example.candidate 1 (Example.jan 1) (Example.jan 5));
       CreateBooking Example.today
         (Example.candidate 1 (Example.jan 5) (Example.jan 8));
       UpdateBooking Example.today 2 (Example.move_check_in (Example.jan 4))]
      Example.store0 = Some st'
    ∧ bookings st' !! 1 = Some (mkBooking 1 7 (Example.jan 1) (Example.jan 5)
                                          2 400 "pending" "")
    ∧ bookings st' !! 2 = Some (mkBooking 1 7 (Example.jan 4) (Example.jan 8)
                                          2 300 "pending" "")
    ∧ ¬ no_double_booking st'.
Proof.
  eexists. split; [vm_compute; reflexivity|].
  split; [vm_compute; reflexivity|].
  split; [vm_compute; reflexivity|].
  intros Hinv.
  apply (Hinv 1 2
           (mkBooking 1 7 (Example.jan 1) (Example.jan 5) 2 400 "pending" "")
           (mkBooking 1 7 (Example.jan 4) (Example.jan 8) 2 300 "pending" "")).
  - done.
  - vm_compute. reflexivity.
  - vm_compute. reflexivity.
  - reflexivity.
  - left. reflexivity.
  - left. reflexivity.
  - split; reflexivity.
Qed.

(* ===================================================================== *)
(** ** BookingSerializer.create *)
(* ===================================================================== *)

(** C3. A booking created through the serializer with check-in [a] and
    check-out [b] on a listing priced [p] a night has [b > a] and is
    stored with total price [(b - a) * p]; a listing at 100 a night booked
    from Jan 1 to Jan 4 gives 300. *)
Theorem created_total_price :
  (∀ defaults today d st instance st' a b l listing,
     data_check_in_date d = Some a →
     data_check_out_date d = Some b →
     data_listing_id d = Some l →
     listings st !! l = Some listing →
     serializer_create defaults today d st = (Returned instance, st') →
     a < b
     ∧ total_price (row instance) = (b - a) * price_per_night listing
     ∧ bookings st' !! pk instance = Some (row instance))
  ∧ ∃ st',
      serializer_create Example.defaults Example.today
        (Example.candidate 1 (Example.jan 1) (Example.jan 4)) Example.store0
      = (Returned (mkInstance 1 (mkBooking 1 7 (Example.jan 1) (Example.jan 4)
                                           2 300 "pending" "")), st')
      ∧ bookings st' !! 1
        = Some (mkBooking 1 7 (Example.jan 1) (Example.jan 4)
                          2 300 "pending" "").
Proof.
  split.
  - intros defaults today d st instance st' a b l listing Ha Hb Hl Hlook.
    rewrite serializer_create_unfold.
    destruct (missing_required _ _); [|done].
    destruct (verdict _ _ _ _) eqn:Hv; [done|].
    intros (l' & listing' & a' & b' & Hl' & Hlook' & Ha' & Hb' & _ & _ & _
            & Hprice & _ & ->)%create_returned.
    simpl in Hl', Ha', Hb'.
    assert (a' = a) as -> by congruence.
    assert (b' = b) as -> by congruence.
    assert (l' = l) as -> by congruence.
    assert (listing' = listing) as -> by congruence.
    repeat split.
    + unfold verdict in Hv.
      rewrite (date_rule_present today (writable d) a b) in Hv
        by done.
      destruct (Z.leb_spec b a); [done|lia].
    + rewrite Hprice. lia.
    + simpl. apply lookup_insert_eq.
  - eexists. split; vm_compute; reflexivity.
Qed.

Lemma created_total_price_witness :
  total_price
    (row (mkInstance 1 (mkBooking 1 7 (Example.jan 1) (Example.jan 4)
                                  2 300 "pending" "")))
  = (Example.jan 4 - Example.jan 1) * price_per_night (mkListing 100 4).
Proof.
  refine (proj1 (proj2 (proj1 created_total_price Example.defaults
            Example.today
            (Example.candidate 1 (Example.jan 1) (Example.jan 4))
            Example.store0 _ _ (Example.jan 1) (Example.jan 4) 1
            (mkListing 100 4) eq_refl eq_refl eq_refl eq_refl _))).
  vm_compute. reflexivity.
Defined.

(* ===================================================================== *)
(** ** Frame properties *)
(* ===================================================================== *)

(** C8. [validate] never writes to the store, and a create or update that
    ends in a validation error, raised by [validate] or by the field
    stage before it, leaves the store exactly as it was: no booking is
    added and no row changes. *)
Theorem rejection_changes_nothing :
  (∀ self_instance today data st,
     (validate self_instance today data st).2 = st)
  ∧ (∀ defaults r st rejection,
       (perform defaults r st).1 = Raised (ValidationError rejection) →
       (perform defaults r st).2 = st)
  ∧ (∀ defaults r st fields,
       (perform defaults r st).1 = Raised (RequiredFieldsMissing fields) →
       (perform defaults r st).2 = st).
Proof.
  split; [apply validate_store|].
  split.
  - intros defaults r st rejection Hp.
    destruct (perform defaults r st) as [o st'] eqn:Heq. simpl in *.
    subst o. by apply perform_raised in Heq.
  - intros defaults r st fields Hp.
    destruct (perform defaults r st) as [o st'] eqn:Heq. simpl in *.
    subst o. by apply perform_raised in Heq.
Qed.

Lemma rejection_changes_nothing_witness :
  (perform Example.defaults
     (CreateBooking Example.today
        (Example.candidate 1 (Example.jan 4) (Example.jan 8)))
     Example.store1).1 = Raised (ValidationError NotAvailable)
  ∧ (perform Example.defaults
       (CreateBooking Example.today
          (Example.candidate 1 (Example.jan 4) (Example.jan 8)))
       Example.store1).2 = Example.store1.
Proof.
  assert ((perform Example.defaults
             (CreateBooking Example.today
                (Example.candidate 1 (Example.jan 4) (Example.jan 8)))
             Example.store1).1 = Raised (ValidationError NotAvailable)) as Hp
    by (vm_compute; reflexivity).
  split; [exact Hp|].
  exact (proj1 (proj2 rejection_changes_nothing) Example.defaults
           (CreateBooking Example.today
              (Example.candidate 1 (Example.jan 4) (Example.jan 8)))
           Example.store1 NotAvailable Hp).
Defined.



(* ===================================================================== *)
(** ** Further lemmas *)
(* ===================================================================== *)

Lemma date_rule_None today d :
  date_rule today d = None ↔
    ∀ ci co, data_check_in_date d = Some ci →
             data_check_out_date d = Some co →
             ci < co ∧ today ≤ ci.
Proof.
  unfold date_rule.
  destruct (data_check_in_date d) as [ci|]; [|by split].
  destruct (data_check_out_date d) as [co|]; [|by split].
  destruct (Z.leb_spec co ci).
  - split; [done|]. intros H'. destruct (H' ci co); [done..|lia].
  - destruct (Z.ltb_spec ci today).
    + split; [done|]. intros H'. destruct (H' ci co); [done..|lia].
    + split; [|done]. intros _ ? ? [= <-] [= <-]. lia.
Qed.

Lemma conflict_rule_free st self_instance d :
  conflict_rule (bookings st) self_instance d = None ↔
    ∀ ci co l, data_check_in_date d = Some ci →
               data_check_out_date d = Some co →
               data_listing_id d = Some l → l ≠ 0 →
               ¬ conflicting st self_instance l ci co.
Proof.
  destruct (data_check_in_date d) as [ci|] eqn:Hci;
    [|unfold conflict_rule; rewrite Hci; by split].
  destruct (data_check_out_date d) as [co|] eqn:Hco;
    [|unfold conflict_rule; rewrite Hci, Hco; by split].
  destruct (truthy_int (data_listing_id d)) as [l|] eqn:Hl.
  - rewrite (conflict_rule_None st self_instance d ci co l Hci Hco Hl).
    apply truthy_int_Some in Hl as [Hl Hl0]. split.
    + intros Hfree ? ? l' [= <-] [= <-] Hl' _.
      by assert (l' = l) as -> by congruence.
    + intros Hfree. by apply Hfree.
  - unfold conflict_rule. rewrite Hci, Hco, Hl. split; [|done].
    intros _ ? ? l' _ _ Hl' Hl0.
    apply truthy_int_None in Hl as [Hl|Hl]; congruence.
Qed.

Lemma verdict_None st self_instance today d :
  verdict st self_instance today d = None ↔
    date_rule today d = None
    ∧ capacity_rule (listings st) d = None
    ∧ conflict_rule (bookings st) self_instance d = None.
Proof.
  unfold verdict.
  destruct (date_rule today d); [by split; [|intros (? & _)]|].
  destruct (capacity_rule _ d); [by split; [|intros (_ & ? & _)]|].
  by split; [|intros (_ & _ & ?)].
Qed.

Lemma validate_returns st self_instance today d :
  validate self_instance today d st = (Returned d, st)
  ↔ verdict st self_instance today d = None.
Proof.
  rewrite validate_rules.
  destruct (verdict _ _ _ _); split; intros; done.
Qed.

(* ===================================================================== *)
(** ** BookingSerializer.validate: what is accepted and what is raised *)
(* ===================================================================== *)

(** X1. [validate] returns the data exactly when: the dates, if both are
    given, are in order and not in the past; the guests, if a non-zero
    count and a non-zero listing reference are given, fit an existing
    listing; and, if both dates and a non-zero listing reference are
    given, no other pending or confirmed booking of the listing overlaps
    them. *)
Theorem validate_accepts_iff st self_instance today data :
  validate self_instance today data st = (Returned data, st)
  ↔ (∀ ci co, data_check_in_date data = Some ci →
              data_check_out_date data = Some co →
              ci < co ∧ today ≤ ci)
    ∧ within_capacity st data
    ∧ (∀ ci co l, data_check_in_date data = Some ci →
                  data_check_out_date data = Some co →
                  data_listing_id data = Some l → l ≠ 0 →
                  ¬ conflicting st self_instance l ci co).
Proof.
  by rewrite validate_returns, verdict_None, date_rule_None,
    capacity_rule_None, conflict_rule_free.
Qed.

(** X2. Whatever the data and the store, [validate] either returns the
    data unchanged or raises a validation error, and leaves the store
    alone: a missing listing never escapes as [DoesNotExist], and the
    capacity error quotes the guest count of the data and the capacity of
    the listing it names. *)
Theorem validate_outcomes st self_instance today data :
  validate self_instance today data st = (Returned data, st)
  ∨ ∃ r,
      validate self_instance today data st = (Raised (ValidationError r), st)
      ∧ (r = CheckOutNotAfterCheckIn
         ∨ r = CheckInInPast
         ∨ (r = InvalidListing
            ∧ ∃ l, data_listing_id data = Some l ∧ listings st !! l = None)
         ∨ (∃ l listing g,
              data_listing_id data = Some l
              ∧ listings st !! l = Some listing
              ∧ data_guests data = Some g
              ∧ g > max_guests listing
              ∧ r = ExceedsCapacity g (max_guests listing))
         ∨ r = NotAvailable).
Proof.
  rewrite validate_rules. unfold verdict.
  destruct (date_rule today data) as [r|] eqn:Hd.
  { right. exists r. split; [done|].
    apply date_rule_rejections in Hd. tauto. }
  destruct (capacity_rule _ data) as [r|] eqn:Hc.
  { right. exists r. split; [done|]. unfold capacity_rule in Hc.
    destruct (truthy_int (data_listing_id data)) as [l|] eqn:Hl; [|done].
    destruct (truthy_int (data_guests data)) as [g|] eqn:Hg; [|done].
    apply truthy_int_Some in Hl as [Hl _].
    apply truthy_int_Some in Hg as [Hg _].
    destruct (listings st !! l) as [listing|] eqn:Hlook.
    - rewrite Z.gtb_ltb in Hc.
      destruct (Z.ltb_spec (max_guests listing) g); [|done].
      injection Hc as <-. right. right. right. left.
      exists l, listing, g. repeat split; try done. lia.
    - injection Hc as <-. right. right. left. split; [done|]. by exists l. }
  destruct (conflict_rule _ _ data) as [r|] eqn:Hq; [|by left].
  right. exists r. split; [done|].
  apply conflict_rule_rejections in Hq. tauto.
Qed.

(** X3. Data that leaves out a date, and that leaves out the listing
    reference or the guest count (or carries 0 for it), passes validation
    whatever the store, the clock and the instance being updated. *)
Theorem incomplete_data_always_valid st self_instance today data :
  data_check_in_date data = None ∨ data_check_out_date data = None →
  data_listing_id data = None ∨ data_listing_id data = Some 0
  ∨ data_guests data = None ∨ data_guests data = Some 0 →
  validate self_instance today data st = (Returned data, st).
Proof.
  intros Hdates Hcap. apply validate_returns, verdict_None. repeat split.
  - unfold date_rule. destruct Hdates as [-> | ->]; [done|].
    by destruct (data_check_in_date data).
  - apply capacity_rule_skipped. tauto.
  - unfold conflict_rule. destruct Hdates as [-> | ->]; [done|].
    by destruct (data_check_in_date data).
Qed.

Lemma incomplete_data_always_valid_witness :
  validate
    (Some (mkInstance 1 (mkBooking 1 7 (Example.jan 1) (Example.jan 5)
                                   2 400 "confirmed" "")))
    Example.today
    (mkData None None None (Some (Example.today - 30)) None None None None)
    Example.store1
  = (Returned
       (mkData None None None (Some (Example.today - 30)) None None None None),
     Example.store1).
Proof.
  apply (incomplete_data_always_valid Example.store1
           (Some (mkInstance 1 (mkBooking 1 7 (Example.jan 1) (Example.jan 5)
                                          2 400 "confirmed" "")))
           Example.today
           (mkData None None None (Some (Example.today - 30))
                   None None None None)).
  - left. reflexivity.
  - left. reflexivity.
Defined.

(* ===================================================================== *)
(** ** BookingSerializer.validate: which rows matter *)
(* ===================================================================== *)

Lemma conflicting_weaken st instance l ci co :
  conflicting st (Some instance) l ci co → conflicting st None l ci co.
Proof.
  intros (k & b & ? & _ & ?). exists k, b. split; [done|]. split; [|done].
  by intros ? [=].
Qed.

Lemma conflicting_rejected st self_instance today d ci co l :
  data_check_in_date d = Some ci →
  data_check_out_date d = Some co →
  data_listing_id d = Some l → l ≠ 0 →
  conflicting st self_instance l ci co →
  ∃ r, validate self_instance today d st = (Raised (ValidationError r), st).
Proof.
  intros Hci Hco Hl Hl0 Hc.
  assert (Htl : truthy_int (data_listing_id d) = Some l)
    by by apply truthy_int_Some.
  apply (conflict_rule_Some st self_instance d ci co l Hci Hco Htl) in Hc.
  rewrite validate_rules. unfold verdict. rewrite Hc.
  destruct (date_rule today d); [by eauto|].
  destruct (capacity_rule _ d); by eauto.
Qed.

Lemma conflicting_insert_irrelevant st self_instance k b l ci co :
  bookings st !! k = None →
  ¬ active b ∨ listing_id b ≠ l
  ∨ co ≤ check_in_date b ∨ check_out_date b ≤ ci →
  conflicting (mkStore (listings st) (<[k := b]> (bookings st)))
              self_instance l ci co
  ↔ conflicting st self_instance l ci co.
Proof.
  intros Hk Hirr. split.
  - intros (k' & b' & Hkb & Hself & Hl & Hact & Hin & Hout). simpl in Hkb.
    destruct (decide (k' = k)) as [->|Hne].
    + rewrite lookup_insert_eq in Hkb. injection Hkb as <-.
      destruct Hirr as [?|[?|[?|?]]]; [done|done|lia|lia].
    + rewrite lookup_insert_ne in Hkb by done. by exists k', b'.
  - intros (k' & b' & Hkb & ?). exists k', b'. split; [|done]. simpl.
    rewrite lookup_insert_ne; [done|]. intros ->. congruence.
Qed.

(** X4. Adding a booking that is neither pending nor confirmed, or is on
    another listing than the data names, or whose range lies entirely
    before or after the dates of the data, never changes the outcome of
    [validate]: only active bookings of the same listing that reach into
    the requested range can block. *)
Theorem irrelevant_booking_never_blocks st self_instance today data k b :
  bookings st !! k = None →
  ¬ active b
  ∨ data_listing_id data ≠ Some (listing_id b)
  ∨ (∃ ci co, data_check_in_date data = Some ci
              ∧ data_check_out_date data = Some co
              ∧ (co ≤ check_in_date b ∨ check_out_date b ≤ ci)) →
  (validate self_instance today data
     (mkStore (listings st) (<[k := b]> (bookings st)))).1
  = (validate self_instance today data st).1.
Proof.
  intros Hk Hirr. rewrite !validate_rules. simpl. unfold verdict. simpl.
  destruct (date_rule today data); [done|].
  destruct (capacity_rule _ data); [done|].
  assert (conflict_rule (<[k := b]> (bookings st)) self_instance data
          = conflict_rule (bookings st) self_instance data) as ->; [|done].
  unfold conflict_rule.
  destruct (data_check_in_date data) as [ci|] eqn:Hci; [|done].
  destruct (data_check_out_date data) as [co|] eqn:Hco; [|done].
  destruct (truthy_int (data_listing_id data)) as [l|] eqn:Hl; [|done].
  apply truthy_int_Some in Hl as [Hl _].
  match goal with
  | |- (if ?x then _ else _) = (if ?y then _ else _) =>
      assert (x = y) as ->; [|done]
  end.
  apply Bool.eq_iff_eq_true.
  pose proof (exists_selected
                (mkStore (listings st) (<[k := b]> (bookings st)))
                self_instance l co ci) as Hnew.
  simpl in Hnew. rewrite Hnew, (exists_selected st).
  apply conflicting_insert_irrelevant; [done|].
  destruct Hirr as [?|[?|(ci' & co' & ? & ? & ?)]].
  - by left.
  - right. left. congruence.
  - right. right.
    assert (ci' = ci) as -> by congruence.
    by assert (co' = co) as -> by congruence.
Qed.

Lemma irrelevant_booking_never_blocks_witness :
  (validate None Example.today
     (Example.candidate 1 (Example.jan 10) (Example.jan 12))
     (mkStore (listings Example.store1)
        (<[2 := mkBooking 1 7 (Example.jan 9) (Example.jan 13) 2 400
                          "cancelled" ""]> (bookings Example.store1)))).1
  = (validate None Example.today
       (Example.candidate 1 (Example.jan 10) (Example.jan 12))
       Example.store1).1.
Proof.
  apply (irrelevant_booking_never_blocks Example.store1 None Example.today
           (Example.candidate 1 (Example.jan 10) (Example.jan 12)) 2
           (mkBooking 1 7 (Example.jan 9) (Example.jan 13) 2 400
                      "cancelled" "")).
  - reflexivity.
  - left. intros [H|H]; discriminate H.
Defined.

(** X5. Validation for an update is never stricter than validation for a
    create: data that [validate] accepts without an instance is accepted
    with any instance. *)
Theorem update_validation_no_stricter st instance today data :
  validate None today data st = (Returned data, st) →
  validate (Some instance) today data st = (Returned data, st).
Proof.
  rewrite !validate_returns, !verdict_None, !conflict_rule_free.
  intros (Hd & Hc & Hfree). repeat split; try done.
  intros ci co l Hci Hco Hl Hl0 Hconf%conflicting_weaken.
  by apply (Hfree ci co l).
Qed.

Lemma update_validation_no_stricter_witness :
  validate (Some (mkInstance 1 (mkBooking 1 7 (Example.jan 1) (Example.jan 5)
                                          2 400 "confirmed" "")))
           Example.today
           (Example.candidate 1 (Example.jan 10) (Example.jan 12))
           Example.store1
  = (Returned (Example.candidate 1 (Example.jan 10) (Example.jan 12)),
     Example.store1).
Proof.
  apply (update_validation_no_stricter Example.store1
           (mkInstance 1 (mkBooking 1 7 (Example.jan 1) (Example.jan 5)
                                    2 400 "confirmed" ""))
           Example.today
           (Example.candidate 1 (Example.jan 10) (Example.jan 12))).
  vm_compute. reflexivity.
Defined.

(** X6. In a table without double bookings, writing a pending or
    confirmed booking's own values back through an update succeeds and
    changes nothing, provided its dates are in order, its check-in is not
    in the past and its guests fit: the booking does not conflict with
    itself. *)
Theorem update_with_own_values st today k b :
  no_double_booking st →
  bookings st !! k = Some b →
  active b →
  check_in_date b < check_out_date b →
  today ≤ check_in_date b →
  within_capacity st (own_values b) →
  serializer_update today k (own_values b) st = (Returned (mkInstance k b), st).
Proof.
  intros Hinv Hk Hact Hlt Htoday Hcap.
  rewrite serializer_update_unfold, Hk.
  assert (verdict st (Some (mkInstance k b)) today
            (writable (own_values b)) = None) as ->.
  { apply verdict_None. repeat split.
    - apply date_rule_None. intros ? ? [= <-] [= <-]. done.
    - by apply capacity_rule_None.
    - apply conflict_rule_free.
      intros ? ? ? [= <-] [= <-] [= <-] _
             (j & bj & Hj & Hself & Hl & Hactj & Hin & Hout).
      apply (Hinv j k bj b); try done.
      + exact (Hself (mkInstance k b) eq_refl).
      + split; lia. }
  rewrite update_returns. simpl.
  assert (setattrs b (writable (own_values b)) = b) as ->
    by by destruct b.
  rewrite insert_id by done. by destruct st.
Qed.

Lemma update_with_own_values_witness :
  serializer_update Example.today 1
    (own_values (mkBooking 1 7 (Example.jan 1) (Example.jan 5) 2 400
                           "confirmed" ""))
    Example.store1
  = (Returned (mkInstance 1 (mkBooking 1 7 (Example.jan 1) (Example.jan 5)
                                       2 400 "confirmed" "")),
     Example.store1).
Proof.
  apply (update_with_own_values Example.store1 Example.today 1
           (mkBooking 1 7 (Example.jan 1) (Example.jan 5) 2 400
                      "confirmed" "")).
  - intros i j bi bj Hij Hi Hj. unfold Example.store1 in Hi, Hj.
    simpl in Hi, Hj.
    apply lookup_singleton_Some in Hi as [<- _].
    apply lookup_singleton_Some in Hj as [<- _]. done.
  - reflexivity.
  - right. reflexivity.
  - vm_compute. reflexivity.
  - vm_compute. discriminate.
  - intros l g [= <-] _ [= <-] _. exists (mkListing 100 4).
    split; [reflexivity|]. vm_compute. discriminate.
Defined.

(** X7. Once a pending or confirmed booking has been created on a listing
    with a non-zero reference, every later candidate for that listing
    whose dates reach into its range is rejected, whether it comes as a
    create or as an update of another booking. *)
Theorem created_booking_blocks_overlap
    defaults today d st instance st' self_instance today' d' ci co :
  serializer_create defaults today d st = (Returned instance, st') →
  active (row instance) →
  listing_id (row instance) ≠ 0 →
  (∀ other, self_instance = Some other → pk other ≠ pk instance) →
  data_listing_id d' = Some (listing_id (row instance)) →
  data_check_in_date d' = Some ci →
  data_check_out_date d' = Some co →
  check_in_date (row instance) < co →
  ci < check_out_date (row instance) →
  ∃ r, validate self_instance today' d' st' = (Raised (ValidationError r), st').
Proof.
  rewrite serializer_create_unfold.
  destruct (missing_required _ _); [|done].
  destruct (verdict _ _ _ _); [done|].
  intros (l & listing & a & b & _ & _ & _ & _ & _ & _ & _ & _ & _ & ->)
         %create_returned Hact Hl0 Hself Hl Hci Hco Hin Hout.
  apply (conflicting_rejected _ _ _ _ ci co (listing_id (row instance)));
    try done.
  exists (pk instance), (row instance). simpl.
  rewrite lookup_insert_eq. repeat split; try done; try lia.
  intros other Hs Heq. by apply (Hself other Hs).
Qed.

Lemma created_booking_blocks_overlap_witness :
  ∃ r,
    validate None Example.today
      (Example.candidate 1 (Example.jan 3) (Example.jan 6))
      (serializer_create Example.defaults Example.today
         (Example.candidate 1 (Example.jan 1) (Example.jan 4))
         Example.store0).2
    = (Raised (ValidationError r),
       (serializer_create Example.defaults Example.today
          (Example.candidate 1 (Example.jan 1) (Example.jan 4))
          Example.store0).2).
Proof.
  refine (created_booking_blocks_overlap Example.defaults Example.today
            (Example.candidate 1 (Example.jan 1) (Example.jan 4))
            Example.store0
            (mkInstance 1 (mkBooking 1 7 (Example.jan 1) (Example.jan 4)
                                     2 300 "pending" ""))
            _ None Example.today
            (Example.candidate 1 (Example.jan 3) (Example.jan 6))
            (Example.jan 3) (Example.jan 6) _ _ _ _ eq_refl eq_refl eq_refl
            _ _).
  - vm_compute. reflexivity.
  - left. reflexivity.
  - simpl. lia.
  - intros other H. discriminate H.
  - vm_compute. reflexivity.
  - vm_compute. reflexivity.
Defined.

(** X8. For a stored booking and a candidate that both have their dates in
    order, the conflict filter selects the booking exactly when it is on
    the listing, pending or confirmed, and has at least one night in
    common with the candidate. *)
Theorem filter_selects_shared_nights l co ci k b :
  check_in_date b < check_out_date b →
  ci < co →
  filter_conflicting l co ci Booking_objects k b = true
  ↔ listing_id b = l ∧ active b
    ∧ shares_night (check_in_date b) (check_out_date b) ci co.
Proof.
  intros Hb Hc. rewrite filter_conflicting_spec. unfold shares_night.
  split.
  - intros (? & ? & ? & ?). repeat split; try done.
    exists (Z.max (check_in_date b) ci). lia.
  - intros (? & ? & night & ? & ?). repeat split; try done; lia.
Qed.

Lemma filter_selects_shared_nights_witness :
  filter_conflicting 1 (Example.jan 8) (Example.jan 4) Booking_objects 1
    (mkBooking 1 7 (Example.jan 1) (Example.jan 5) 2 400 "confirmed" "")
  = true
  ↔ listing_id (mkBooking 1 7 (Example.jan 1) (Example.jan 5) 2 400
                          "confirmed" "") = 1
    ∧ active (mkBooking 1 7 (Example.jan 1) (Example.jan 5) 2 400
                        "confirmed" "")
    ∧ shares_night (Example.jan 1) (Example.jan 5)
                   (Example.jan 4) (Example.jan 8).
Proof.
  apply (filter_selects_shared_nights 1 (Example.jan 8) (Example.jan 4) 1
           (mkBooking 1 7 (Example.jan 1) (Example.jan 5) 2 400
                      "confirmed" "")).
  - vm_compute. reflexivity.
  - vm_compute. reflexivity.
Defined.

(* ===================================================================== *)
(** ** BookingSerializer.create: success and failure *)
(* ===================================================================== *)

(** X9. A create through the serializer succeeds only if the data
    carries [listing_id], [user_id] and both dates, carries or has a
    column default for every other field, passes [validate], and names a
    listing that exists. *)
Theorem serializer_create_succeeds_only_if
    defaults today d st instance st' :
  serializer_create defaults today d st = (Returned instance, st') →
  is_Some (data_listing_id d)
  ∧ is_Some (data_user_id d)
  ∧ is_Some (data_check_in_date d)
  ∧ is_Some (data_check_out_date d)
  ∧ is_Some (supplied (data_guests d) (default_guests defaults))
  ∧ is_Some (supplied (data_status d) (default_status defaults))
  ∧ is_Some (supplied (data_special_requests d)
                      (default_special_requests defaults))
  ∧ validate None today (writable d) st = (Returned (writable d), st)
  ∧ (∃ l, data_listing_id d = Some l ∧ is_Some (listings st !! l)).
Proof.
  intros Hc.
  pose proof (serializer_create_required _ _ _ _ _ _ Hc) as Hreq.
  apply missing_required_nil in Hreq
    as (Hl & Hu & Hci & Hco & Hg & Hs & Hr).
  apply serializer_create_returned in Hc
    as (Hv & l & listing & _ & _ & _ & _ & _ & _ & Hl' & Hlook & _).
  repeat split; try done.
  - by apply validate_returns.
  - exists l. by rewrite Hlook.
Qed.

Lemma serializer_create_succeeds_only_if_witness :
  is_Some (data_user_id
             (Example.candidate 1 (Example.jan 5) (Example.jan 8)))
  ∧ validate None Example.today
      (writable (Example.candidate 1 (Example.jan 5) (Example.jan 8)))
      Example.store1
    = (Returned
         (writable (Example.candidate 1 (Example.jan 5) (Example.jan 8))),
       Example.store1).
Proof.
  destruct (serializer_create_succeeds_only_if Example.defaults
              Example.today
              (Example.candidate 1 (Example.jan 5) (Example.jan 8))
              Example.store1
              (mkInstance 2 (mkBooking 1 7 (Example.jan 5) (Example.jan 8)
                                       2 300 "pending" ""))
              (mkStore (listings Example.store1)
                 (<[2 := mkBooking 1 7 (Example.jan 5) (Example.jan 8)
                                   2 300 "pending" ""]>
                    (bookings Example.store1))))
    as (_ & Hu & _ & _ & _ & _ & _ & Hv & _).
  - vm_compute. reflexivity.
  - split; [exact Hu|exact Hv].
Defined.

(** X10. A successful create adds exactly one row, under a primary key
    that was not in use; every row that was there stays as it was and the
    listing table is not touched. The new row carries the listing, dates
    and other entries of the data, or the column default where the data
    has no entry. *)
Theorem create_adds_one_row defaults today d st instance st' :
  serializer_create defaults today d st = (Returned instance, st') →
  bookings st !! pk instance = None
  ∧ bookings st' = <[pk instance := row instance]> (bookings st)
  ∧ listings st' = listings st
  ∧ size (bookings st') = S (size (bookings st))
  ∧ (∀ k b, bookings st !! k = Some b → bookings st' !! k = Some b)
  ∧ data_listing_id d = Some (listing_id (row instance))
  ∧ data_check_in_date d = Some (check_in_date (row instance))
  ∧ data_check_out_date d = Some (check_out_date (row instance))
  ∧ supplied (data_user_id d) (default_user_id defaults)
    = Some (user_id (row instance))
  ∧ supplied (data_guests d) (default_guests defaults)
    = Some (guests (row instance))
  ∧ supplied (data_status d) (default_status defaults)
    = Some (status (row instance))
  ∧ supplied (data_special_requests d) (default_special_requests defaults)
    = Some (special_requests (row instance)).
Proof.
  intros (_ & l & listing & ci & co & u & g & s & r & Hl & Hlook & Hci & Hco
          & Hu & Hg & Hs & Hr & -> & ->)%serializer_create_returned.
  simpl. pose proof (fresh_pk_unused (bookings st)) as Hfresh.
  repeat split; try done.
  - by apply map_size_insert_None.
  - intros k b Hk. rewrite lookup_insert_ne; [done|].
    intros <-. congruence.
Qed.

Lemma create_adds_one_row_witness :
  size (bookings
          (serializer_create Example.defaults Example.today
             (Example.candidate 1 (Example.jan 5) (Example.jan 8))
             Example.store1).2)
  = S (size (bookings Example.store1)).
Proof.
  refine (proj1 (proj2 (proj2 (proj2 (create_adds_one_row Example.defaults
            Example.today
            (Example.candidate 1 (Example.jan 5) (Example.jan 8))
            Example.store1
            (mkInstance 2 (mkBooking 1 7 (Example.jan 5) (Example.jan 8)
                                     2 300 "pending" ""))
            _ _))))).
  vm_compute. reflexivity.
Defined.

(** X11. A booking created through the serializer has its check-out after
    its check-in and its check-in not before the current date; its listing
    exists; a non-zero guest count given for a non-zero listing reference
    is within the listing's capacity; and, for a non-zero listing
    reference, no pending or confirmed booking that was already there
    overlaps it. *)
Theorem created_booking_meets_rules defaults today d st instance st' :
  serializer_create defaults today d st = (Returned instance, st') →
  check_in_date (row instance) < check_out_date (row instance)
  ∧ today ≤ check_in_date (row instance)
  ∧ (∃ listing,
       listings st !! listing_id (row instance) = Some listing
       ∧ (data_guests d = Some (guests (row instance)) →
          guests (row instance) ≠ 0 →
          listing_id (row instance) ≠ 0 →
          guests (row instance) ≤ max_guests listing))
  ∧ (listing_id (row instance) ≠ 0 →
     ¬ conflicting st None (listing_id (row instance))
         (check_in_date (row instance)) (check_out_date (row instance))).
Proof.
  intros (Hv & l & listing & ci & co & u & g & s & r & Hl & Hlook & Hci & Hco
          & Hu & Hg & Hs & Hr & -> & _)%serializer_create_returned.
  simpl. apply verdict_None in Hv as (Hd & Hcap & Hq).
  pose proof (proj1 (date_rule_None _ _) Hd ci co) as Hdates.
  apply capacity_rule_None in Hcap.
  rewrite conflict_rule_free in Hq.
  destruct Hdates as [? ?]; [done..|]. repeat split; try done.
  - exists listing. split; [done|]. intros Hg' Hg0 Hl0.
    destruct (Hcap l g) as (listing' & Hlook' & ?); try done.
    by assert (listing' = listing) as -> by congruence.
  - intros Hl0. by apply (Hq ci co l).
Qed.

Lemma created_booking_meets_rules_witness :
  Example.today
  ≤ check_in_date
      (row (mkInstance 2 (mkBooking 1 7 (Example.jan 5) (Example.jan 8)
                                    2 300 "pending" ""))).
Proof.
  refine (proj1 (proj2 (created_booking_meets_rules Example.defaults
            Example.today
            (Example.candidate 1 (Example.jan 5) (Example.jan 8))
            Example.store1
            (mkInstance 2 (mkBooking 1 7 (Example.jan 5) (Example.jan 8)
                                     2 300 "pending" ""))
            _ _))).
  vm_compute. reflexivity.
Defined.

(** X12. On a listing whose price passes
    [ListingSerializer.validate_price_per_night], every booking created
    through the serializer is charged at least one night: its total price
    is at least the price per night, hence positive. *)
Theorem created_total_price_positive
    defaults today d st instance st' listing :
  serializer_create defaults today d st = (Returned instance, st') →
  listings st !! listing_id (row instance) = Some listing →
  validate_price_per_night (price_per_night listing)
  = Accepted (price_per_night listing) →
  0 < price_per_night listing ≤ total_price (row instance).
Proof.
  intros (Hv & l & listing' & ci & co & u & g & s & r & Hl & Hlook & Hci & Hco
          & Hu & Hg & Hs & Hr & -> & _)%serializer_create_returned.
  simpl. intros Hlook' Hprice.
  assert (listing' = listing) as -> by congruence.
  apply verdict_None in Hv as (Hd & _ & _).
  destruct (proj1 (date_rule_None _ _) Hd ci co) as [? _]; [done..|].
  unfold validate_price_per_night in Hprice.
  destruct (Z.leb_spec (price_per_night listing) 0); [done|]. nia.
Qed.

Lemma created_total_price_positive_witness :
  0 < price_per_night (mkListing 100 4)
  ≤ total_price
      (row (mkInstance 2 (mkBooking 1 7 (Example.jan 5) (Example.jan 8)
                                    2 300 "pending" ""))).
Proof.
  refine (created_total_price_positive Example.defaults Example.today
            (Example.candidate 1 (Example.jan 5) (Example.jan 8))
            Example.store1
            (mkInstance 2 (mkBooking 1 7 (Example.jan 5) (Example.jan 8)
                                     2 300 "pending" ""))
            _ (mkListing 100 4) _ eq_refl eq_refl).
  vm_compute. reflexivity.
Defined.

(** X13. On a listing whose capacity passes
    [ListingSerializer.validate_max_guests], a booking for one guest is
    never rejected for capacity. *)
Theorem single_guest_fits_validated_listing
    st self_instance today data l listing :
  data_listing_id data = Some l →
  listings st !! l = Some listing →
  validate_max_guests (max_guests listing) = Accepted (max_guests listing) →
  data_guests data = Some 1 →
  ∀ g m, (validate self_instance today data st).1
         ≠ Raised (ValidationError (ExceedsCapacity g m)).
Proof.
  intros Hl Hlook Hmax Hg g m. rewrite validate_rules. simpl.
  unfold validate_max_guests in Hmax.
  destruct (Z.leb_spec (max_guests listing) 0); [done|].
  unfold verdict.
  destruct (date_rule today data) as [r|] eqn:Hd.
  { by apply date_rule_rejections in Hd as [-> | ->]. }
  assert (capacity_rule (listings st) data = None) as ->.
  { unfold capacity_rule. rewrite Hl, Hg. simpl.
    destruct (l =? 0); [done|]. rewrite Hlook, Z.gtb_ltb.
    by destruct (Z.ltb_spec (max_guests listing) 1); [lia|]. }
  destruct (conflict_rule _ _ _) as [r|] eqn:Hq; [|done].
  by apply conflict_rule_rejections in Hq as ->.
Qed.

Lemma single_guest_fits_validated_listing_witness :
  (validate None Example.today
     (mkData (Some 1) (Some 7) (Some (Example.jan 10)) (Some (Example.jan 12))
             (Some 1) None None None)
     Example.store1).1
  ≠ Raised (ValidationError (ExceedsCapacity 1 4)).
Proof.
  apply (single_guest_fits_validated_listing Example.store1 None
           Example.today
           (mkData (Some 1) (Some 7) (Some (Example.jan 10))
                   (Some (Example.jan 12)) (Some 1) None None None)
           1 (mkListing 100 4) eq_refl eq_refl eq_refl eq_refl).
Defined.

(** X14. When the data carries every required field and passes
    [validate] but names a listing that does not exist, which can only
    happen with a listing reference of 0 or a guest count that is 0 or
    left to the column default, the create does not end in a validation
    error: [create] raises [DoesNotExist], and nothing is stored. *)
Theorem unknown_listing_escapes_validation defaults today d st l :
  missing_required defaults d = [] →
  data_listing_id d = Some l →
  listings st !! l = None →
  validate None today (writable d) st = (Returned (writable d), st) →
  serializer_create defaults today d st = (Raised DoesNotExist, st)
  ∧ (l = 0 ∨ data_guests d = None ∨ data_guests d = Some 0).
Proof.
  intros Hreq Hl Hlook Hv. apply validate_returns in Hv as Hv'. split.
  - rewrite serializer_create_unfold, Hreq, Hv', create_steps. simpl.
    by rewrite Hl, Hlook.
  - apply verdict_None in Hv' as (_ & Hcap & _).
    apply capacity_rule_None in Hcap.
    destruct (decide (l = 0)) as [?|Hl0]; [by left|right].
    destruct (data_guests d) as [g|] eqn:Hg; [|by left]. right.
    destruct (decide (g = 0)) as [->|Hg0]; [done|].
    destruct (Hcap l g) as (listing & Hlook' & _); try done. congruence.
Qed.

Lemma unknown_listing_escapes_validation_witness :
  serializer_create Example.defaults Example.today (Example.party 99 0)
    Example.store1
  = (Raised DoesNotExist, Example.store1).
Proof.
  refine (proj1 (unknown_listing_escapes_validation Example.defaults
            Example.today (Example.party 99 0) Example.store1 99
            eq_refl eq_refl eq_refl _)).
  vm_compute. reflexivity.
Defined.

(** X15. [create], called with validated data that lacks a key it
    indexes, raises [KeyError] for that key and stores nothing: for
    [listing_id] at once, and for a date once the listing has been found.
    Through the serializer a create never gets that far: data that lacks
    [listing_id], [user_id] or a date is refused by the field stage, with
    the missing fields reported, before [validate] and [create] run. *)
Theorem missing_key_raises_KeyError defaults d st :
  (data_listing_id d = None →
   create defaults d st = (Raised (KeyError "listing_id"), st))
  ∧ (∀ l, data_listing_id d = Some l → is_Some (listings st !! l) →
       (data_check_in_date d = None →
        create defaults d st = (Raised (KeyError "check_in_date"), st))
       ∧ (is_Some (data_check_in_date d) → data_check_out_date d = None →
          create defaults d st = (Raised (KeyError "check_out_date"), st)))
  ∧ (∀ today,
       data_listing_id d = None ∨ data_user_id d = None
       ∨ data_check_in_date d = None ∨ data_check_out_date d = None →
       serializer_create defaults today d st
       = (Raised (RequiredFieldsMissing (missing_required defaults d)), st)
       ∧ missing_required defaults d ≠ []).
Proof.
  rewrite create_steps. split; [|split].
  - by intros ->.
  - intros l -> [listing ->]. split.
    + by intros ->.
    + by intros [ci ->] ->.
  - intros today Hmiss. rewrite serializer_create_unfold.
    assert (missing_required defaults d ≠ []) as Hne.
    { rewrite missing_required_nil.
      intros ([? ?] & [? ?] & [? ?] & [? ?] & _).
      destruct Hmiss as [?|[?|[?|?]]]; congruence. }
    split; [|done]. by destruct (missing_required defaults d).
Qed.

Lemma missing_key_raises_KeyError_witness :
  create Example.defaults
    (mkData None (Some 7) (Some (Example.jan 10)) (Some (Example.jan 12))
            (Some 2) None (Some "pending"%string) (Some ""%string))
    Example.store1
  = (Raised (KeyError "listing_id"), Example.store1)
  ∧ serializer_create Example.defaults Example.today
      (mkData None (Some 7) (Some (Example.jan 10)) (Some (Example.jan 12))
              (Some 2) None (Some "pending"%string) (Some ""%string))
      Example.store1
    = (Raised (RequiredFieldsMissing ["listing_id"%string]), Example.store1).
Proof.
  split.
  - refine (proj1 (missing_key_raises_KeyError Example.defaults
              (mkData None (Some 7) (Some (Example.jan 10))
                      (Some (Example.jan 12)) (Some 2) None
                      (Some "pending"%string) (Some ""%string))
              Example.store1) eq_refl).
  - refine (proj1 (proj2 (proj2 (missing_key_raises_KeyError
              Example.defaults
              (mkData None (Some 7) (Some (Example.jan 10))
                      (Some (Example.jan 12)) (Some 2) None
                      (Some "pending"%string) (Some ""%string))
              Example.store1)) Example.today _)).
    left. reflexivity.
Defined.

(* ===================================================================== *)
(** ** The inherited update, and writes in sequence *)
(* ===================================================================== *)

(** X16. A successful update rewrites the one row it was asked to update:
    the row keeps its primary key, each column takes the entry of the
    data, or keeps its value if the data has no entry for it (the total
    price always keeps it), no row is added or removed, and every other
    row and the listing table stay as they were. *)
Theorem update_rewrites_one_row today k d st instance st' :
  serializer_update today k d st = (Returned instance, st') →
  ∃ b,
    bookings st !! k = Some b
    ∧ pk instance = k
    ∧ row instance = setattrs b (with_total_price None d)
    ∧ total_price (row instance) = total_price b
    ∧ (data_listing_id d = None → listing_id (row instance) = listing_id b)
    ∧ (data_check_in_date d = None →
       check_in_date (row instance) = check_in_date b)
    ∧ (data_check_out_date d = None →
       check_out_date (row instance) = check_out_date b)
    ∧ (data_guests d = None → guests (row instance) = guests b)
    ∧ (data_status d = None → status (row instance) = status b)
    ∧ bookings st' = <[k := row instance]> (bookings st)
    ∧ dom (bookings st') = dom (bookings st)
    ∧ (∀ j, j ≠ k → bookings st' !! j = bookings st !! j)
    ∧ listings st' = listings st.
Proof.
  rewrite serializer_update_unfold.
  destruct (bookings st !! k) as [b|] eqn:Hk; [|done].
  destruct (verdict _ _ _ _); [done|].
  rewrite update_returns. intros [= <- <-]. simpl.
  exists b. repeat split; try done.
  - by intros ->.
  - by intros ->.
  - by intros ->.
  - by intros ->.
  - by intros ->.
  - apply dom_insert_lookup_L. by rewrite Hk.
  - intros j Hj. by rewrite lookup_insert_ne.
Qed.

Lemma update_rewrites_one_row_witness :
  ∃ b,
    bookings Example.store1 !! 1 = Some b
    ∧ check_out_date
        (row (mkInstance 1 (mkBooking 1 7 (Example.jan 2) (Example.jan 5)
                                      2 400 "confirmed" "")))
      = check_out_date b.
Proof.
  destruct (update_rewrites_one_row Example.today 1
              (Example.move_check_in (Example.jan 2)) Example.store1
              (mkInstance 1 (mkBooking 1 7 (Example.jan 2) (Example.jan 5)
                                       2 400 "confirmed" ""))
              (mkStore (listings Example.store1)
                 (<[1 := mkBooking 1 7 (Example.jan 2) (Example.jan 5)
                                   2 400 "confirmed" ""]>
                    (bookings Example.store1))))
    as (b & Hb & _ & _ & _ & _ & _ & Hout & _).
  - vm_compute. reflexivity.
  - exists b. split; [exact Hb|]. apply Hout. reflexivity.
Defined.

Lemma perform_listings defaults r st :
  listings (perform defaults r st).2 = listings st.
Proof.
  destruct (perform defaults r st) as [[instance|e] st'] eqn:Hp; simpl.
  - destruct r as [today d|today k d]; simpl in Hp.
    + by apply serializer_create_returned in Hp
        as (_ & ? & ? & ? & ? & ? & ? & ? & ? & _ & _ & _ & _ & _ & _ & _
            & _ & _ & ->).
    + rewrite serializer_update_unfold in Hp.
      destruct (bookings st !! k); [|done].
      destruct (verdict _ _ _ _); [done|].
      rewrite update_returns in Hp. by injection Hp as _ <-.
  - by apply perform_raised in Hp as ->.
Qed.

(** X17. A create or update never touches the listing table, and one that
    raises, whatever the exception ([KeyError], [DoesNotExist],
    [IntegrityError] or a validation error), leaves the whole store as it
    was: a row is written only as the last step. *)
Theorem failed_write_changes_nothing defaults r st :
  listings (perform defaults r st).2 = listings st
  ∧ (∀ e, (perform defaults r st).1 = Raised e →
          (perform defaults r st).2 = st).
Proof.
  split; [apply perform_listings|].
  intros e He.
  destruct (perform defaults r st) as [o st'] eqn:Hp. simpl in *.
  subst o. by apply perform_raised in Hp.
Qed.

Lemma failed_write_changes_nothing_witness :
  (perform Example.defaults
     (CreateBooking Example.today (Example.party 99 0)) Example.store1).2
  = Example.store1.
Proof.
  refine (proj2 (failed_write_changes_nothing Example.defaults
            (CreateBooking Example.today (Example.party 99 0))
            Example.store1) DoesNotExist _).
  vm_compute. reflexivity.
Defined.

Lemma perform_returned_size defaults r st instance st' :
  perform defaults r st = (Returned instance, st') →
  dom (bookings st) ⊆ dom (bookings st')
  ∧ size (bookings st') = (size (bookings st) + creations [r])%nat.
Proof.
  destruct r as [today d|today k d]; simpl.
  - intros (_ & ? & ? & ? & ? & ? & ? & ? & ? & _ & _ & _ & _ & _ & _ & _
            & _ & -> & ->)%serializer_create_returned.
    simpl. split.
    + rewrite dom_insert_L. set_solver.
    + rewrite map_size_insert_None by apply fresh_pk_unused. lia.
  - rewrite serializer_update_unfold.
    destruct (bookings st !! k) as [b|] eqn:Hk; [|done].
    destruct (verdict _ _ _ _); [done|].
    rewrite update_returns. intros [= _ <-]. simpl. split.
    + rewrite dom_insert_lookup_L; [done|]. by rewrite Hk.
    + rewrite map_size_insert_Some by (by rewrite Hk). lia.
Qed.

(** X18. Over any sequence of successful creates and updates the listing
    table stays the same, no booking is ever removed, and the number of
    bookings grows by exactly the number of creates. *)
Theorem successful_writes_count defaults rs st st' :
  perform_all defaults rs st = Some st' →
  listings st' = listings st
  ∧ dom (bookings st) ⊆ dom (bookings st')
  ∧ size (bookings st') = (size (bookings st) + creations rs)%nat.
Proof.
  revert st. induction rs as [|r rs IH]; intros st; simpl.
  - intros [= <-]. repeat split; [done|lia].
  - destruct (perform defaults r st) as [[instance|e] st1] eqn:Hp; [|done].
    intros (Hl & Hdom & Hsize)%IH.
    pose proof (perform_listings defaults r st) as Hl1.
    rewrite Hp in Hl1. simpl in Hl1.
    apply perform_returned_size in Hp as [Hdom1 Hsize1].
    repeat split; [congruence|by etrans|].
    rewrite Hsize, Hsize1. destruct r; simpl; lia.
Qed.

Lemma successful_writes_count_witness :
  ∃ st',
    perform_all Example.defaults
      [CreateBooking Example.today
         (Example.candidate 1 (Example.jan 5) (Example.jan 8));
       UpdateBooking Example.today 1 (Example.move_check_in (Example.jan 2))]
      Example.store1 = Some st'
    ∧ size (bookings st') = 2%nat.
Proof.
  eexists. split; [vm_compute; reflexivity|].
  refine (proj2 (proj2 (successful_writes_count Example.defaults
            [CreateBooking Example.today
               (Example.candidate 1 (Example.jan 5) (Example.jan 8));
             UpdateBooking Example.today 1
               (Example.move_check_in (Example.jan 2))]
            Example.store1 _ _))).
  vm_compute. reflexivity.
Defined.

(* ===================================================================== *)
(** ** The messages of the validation errors *)
(* ===================================================================== *)

Lemma free_of_split c s1 s2 r1 r2 :
  free_of c s1 → free_of c s2 →
  s1 +:+ String c r1 = s2 +:+ String c r2 →
  s1 = s2 ∧ r1 = r2.
Proof.
  revert s2. induction s1 as [|a s1 IH]; intros [|a' s2]; simpl.
  - by intros _ _ [= ->].
  - intros _ [Hne _] [= <- _]. done.
  - intros [Hne _] _ [= -> _]. done.
  - intros [_ H1] [_ H2] [= -> Heq].
    destruct (IH s2 H1 H2 Heq) as [-> ->]. done.
Qed.

Lemma pretty_N_char_no_paren x : pretty_N_char x ≠ ")"%char.
Proof. unfold pretty_N_char. by repeat case_match. Qed.

Lemma pretty_N_go_free x s :
  free_of ")" s → free_of ")" (pretty_N_go x s).
Proof.
  revert s. induction (N.lt_wf_0 x) as [x _ IH]. intros s Hs.
  destruct (decide (x = 0)%N) as [->|Hx].
  - by rewrite pretty_N_go_0.
  - rewrite pretty_N_go_step by lia. apply IH.
    + apply N.div_lt; lia.
    + split; [apply pretty_N_char_no_paren|done].
Qed.

Lemma pretty_N_free (n : N) : free_of ")" (pretty n).
Proof.
  unfold pretty, pretty_N. case_decide; [by split|].
  by apply pretty_N_go_free.
Qed.

Lemma pretty_Z_free (z : Z) : free_of ")" (pretty z).
Proof.
  destruct z as [|p|p].
  - by split.
  - apply (pretty_N_free (Npos p)).
  - split; [done|]. apply (pretty_N_free (Npos p)).
Qed.

(** X19. The message identifies the rejection: two rejections with the
    same message are the same, and in particular the capacity message
    determines both the guest count and the capacity it quotes. *)
Theorem message_identifies_rejection r r' :
  message r = message r' → r = r'.
Proof.
  destruct r as [| | |g m| |], r' as [| | |g' m'| |]; try done.
  simpl. intros [= Heq].
  change (pretty g +:+ String ")" (" exceeds maximum capacity ("
                                   +:+ pretty m +:+ ").")
          = pretty g' +:+ String ")" (" exceeds maximum capacity ("
                                      +:+ pretty m' +:+ ").")) in Heq.
  apply free_of_split in Heq as [Hg Hrest]; [|apply pretty_Z_free..].
  simpl in Hrest. injection Hrest as Hrest.
  change (pretty m +:+ String ")" "." = pretty m' +:+ String ")" ".")
    in Hrest.
  apply free_of_split in Hrest as [Hm _]; [|apply pretty_Z_free..].
  apply (inj pretty) in Hg, Hm. by subst.
Qed.

Lemma message_identifies_rejection_witness :
  ExceedsCapacity 5 4 = ExceedsCapacity 5 4.
Proof.
  apply (message_identifies_rejection (ExceedsCapacity 5 4)
           (ExceedsCapacity 5 4)).
  reflexivity.
Defined.

(* ===================================================================== *)
(** ** What [validate] reads *)
(* ===================================================================== *)

(** X20. [validate] looks at four keys only: two dicts that agree on
    [check_in_date], [check_out_date], [guests] and [listing_id] are both
    returned or both rejected with the same error. The status of the
    candidate, in particular, plays no part. *)
Theorem validate_reads_four_keys st self_instance today d d' :
  data_check_in_date d = data_check_in_date d' →
  data_check_out_date d = data_check_out_date d' →
  data_guests d = data_guests d' →
  data_listing_id d = data_listing_id d' →
  (validate self_instance today d st = (Returned d, st)
   ∧ validate self_instance today d' st = (Returned d', st))
  ∨ ∃ r,
      validate self_instance today d st = (Raised (ValidationError r), st)
      ∧ validate self_instance today d' st
        = (Raised (ValidationError r), st).
Proof.
  intros Hci Hco Hg Hl. rewrite !validate_rules.
  assert (verdict st self_instance today d
          = verdict st self_instance today d') as ->.
  { unfold verdict, date_rule, capacity_rule, conflict_rule.
    by rewrite Hci, Hco, Hg, Hl. }
  destruct (verdict _ _ _ d') as [r|]; [right; by exists r|by left].
Qed.

Lemma validate_reads_four_keys_witness :
  ∃ r,
    validate None Example.today
      (Example.candidate 1 (Example.jan 4) (Example.jan 8)) Example.store1
    = (Raised (ValidationError r), Example.store1)
    ∧ validate None Example.today
        (mkData (Some 1) (Some 8) (Some (Example.jan 4)) (Some (Example.jan 8))
                (Some 2) None (Some "cancelled"%string) None)
        Example.store1
      = (Raised (ValidationError r), Example.store1).
Proof.
  destruct (validate_reads_four_keys Example.store1 None Example.today
              (Example.candidate 1 (Example.jan 4) (Example.jan 8))
              (mkData (Some 1) (Some 8) (Some (Example.jan 4))
                      (Some (Example.jan 8)) (Some 2) None
                      (Some "cancelled"%string) None)
              eq_refl eq_refl eq_refl eq_refl) as [[H _]|H].
  - vm_compute in H. discriminate H.
  - exact H.
Defined.

(** X21. The conflict test is symmetric: of two pending or confirmed
    bookings of one listing, the filter run for the first selects the
    second exactly when the filter run for the second selects the first,
    so which of the two is the candidate does not matter. *)
Theorem conflict_test_symmetric l k k' a b :
  listing_id a = l → listing_id b = l →
  active a → active b →
  filter_conflicting l (check_out_date a) (check_in_date a)
                     Booking_objects k b
  = filter_conflicting l (check_out_date b) (check_in_date b)
                       Booking_objects k' a.
Proof.
  intros Hla Hlb Ha Hb. apply Bool.eq_iff_eq_true.
  rewrite !filter_conflicting_spec. intuition lia.
Qed.

Lemma conflict_test_symmetric_witness :
  filter_conflicting 1 (Example.jan 8) (Example.jan 4) Booking_objects 1
    (mkBooking 1 7 (Example.jan 1) (Example.jan 5) 2 400 "confirmed" "")
  = filter_conflicting 1 (Example.jan 5) (Example.jan 1) Booking_objects 2
      (mkBooking 1 7 (Example.jan 4) (Example.jan 8) 2 400 "pending" "").
Proof.
  apply (conflict_test_symmetric 1 1 2
           (mkBooking 1 7 (Example.jan 4) (Example.jan 8) 2 400 "pending" "")
           (mkBooking 1 7 (Example.jan 1) (Example.jan 5) 2 400
                      "confirmed" "")
           eq_refl eq_refl).
  - left. reflexivity.
  - right. reflexivity.
Defined.
